(** * dlt-examples: MongoDB to Iceberg glue, embedded in Rocq

    The three Python modules of the repository are embedded here:
    - [dataos_utils.py]   environment accessor and credential assembly,
    - [iceberg_writer.py] provider-dispatch writer,
    - [pipeline.py]       destination callback and entry point.

    Python code is effectful: it reads the process environment, prints,
    raises exceptions and calls external libraries (google.auth, pyiceberg,
    pyarrow, dlt).  The embedding threads a [world] through a small
    state-and-exception monad [M]; every call into an external library is
    appended to a call log and answered by an implementation of the
    [External] interface, over which the theorems quantify. *)

From stdpp Require Import base option list strings gmap.
From Stdlib Require Import ZArith Ascii.

Local Open Scope string_scope.
Local Open Scope list_scope.
Local Open Scope Z_scope.

(** ** Python values *)

(** Exception classes.  The model covers instances of Python's [Exception]
    class, which is what library calls raise on failure and what
    [except Exception] catches; interpreter signals outside that hierarchy
    (KeyboardInterrupt, SystemExit) are not modelled. *)
Inductive exn_class :=
| ValueError
| AttributeError
| TypeError
| LibraryError (cls : string).

Record exn := Exn { exn_cls : exn_class; exn_msg : string }.

(** A columnar table (pyarrow.Table, and equally a pyarrow.RecordBatch):
    a schema of named, typed columns and the rows. *)
Inductive cell :=
| CNull
| CInt (n : Z)
| CStr (s : string).

Record arrow_table := ArrowTable {
  schema : list (string * string);
  rows : list (list cell)
}.

(** google.auth credentials: the account they belong to and the bearer
    token, present once the credentials were refreshed. *)
Record credentials := Credentials {
  cred_account : string;
  cred_token : option string
}.

Inductive pyval :=
| PyNone
| PyStr (s : string)
| PyInt (n : Z)
| PyList (l : list string)
| PyCredentials (c : credentials)
| PyTable (t : arrow_table).

(** pyiceberg catalog client: [load_catalog(name, **properties)] keeps the
    name and the properties it was configured with. *)
Record catalog_client := Catalog {
  cat_name : string;
  cat_properties : gmap string pyval
}.

(** dlt pipeline object, as far as this program configures it. *)
Record dlt_pipeline := Pipeline {
  pipeline_name : string;
  dataset_name : string;
  loader_file_format : string
}.

(** pyiceberg table handle. *)
Record iceberg_table := IcebergTable { tbl_identifier : string }.

(** ** Calls into external libraries *)

Inductive call :=
| LoadCredentialsFromFile (path : pyval) (scopes : pyval)
| CredentialsRefresh (c : credentials)
| LoadCatalog (name : string) (properties : gmap string pyval)
| CreateTableIfNotExists (cat : catalog_client) (destination : string)
                         (sch : list (string * string))
| TableAppend (t : iceberg_table) (data : pyval)
| TableOverwrite (t : iceberg_table) (data : pyval)
| PipelineRun (pipeline_name : string) (collection_names : list string).

(** Catalog interactions: everything addressed to the catalog after the
    client exists. *)
Definition is_catalog_call (c : call) : bool :=
  match c with
  | CreateTableIfNotExists _ _ _ | TableAppend _ _ | TableOverwrite _ _ => true
  | _ => false
  end.

Definition is_append (c : call) : bool :=
  match c with TableAppend _ _ => true | _ => false end.

Definition is_overwrite (c : call) : bool :=
  match c with TableOverwrite _ _ => true | _ => false end.

(** ** The world and the monad *)

(** [environ] is os.environ; [ext] is the state of everything outside the
    process (metastore, warehouse, token server, wall clock); [calls] logs
    the external calls in order; [stdout] the printed lines. *)
Record world (S : Type) := World {
  environ : gmap string string;
  ext : S;
  calls : list call;
  stdout : list string
}.
Arguments World {S}.
Arguments environ {S}.
Arguments ext {S}.
Arguments calls {S}.
Arguments stdout {S}.

Inductive outcome (A : Type) :=
| Returned (a : A)
| Raised (e : exn).
Arguments Returned {A}.
Arguments Raised {A}.

Definition M (S A : Type) : Type := world S -> outcome A * world S.

Definition ret {S A} (a : A) : M S A := fun w => (Returned a, w).

Definition raise {S A} (e : exn) : M S A := fun w => (Raised e, w).

Definition bind {S A B} (m : M S A) (k : A -> M S B) : M S B :=
  fun w => match m w with
           | (Returned a, w') => k a w'
           | (Raised e, w') => (Raised e, w')
           end.

(** [try: m except Exception: h] *)
Definition try_except {S A} (m : M S A) (h : exn -> M S A) : M S A :=
  fun w => match m w with
           | (Returned a, w') => (Returned a, w')
           | (Raised e, w') => h e w'
           end.

Notation "'let!' x ':=' m 'in' k" := (bind m (fun x => k))
  (at level 10, x name, m at level 100, k at level 200).
Notation "'do!' m 'in' k" := (bind m (fun _ => k))
  (at level 10, m at level 100, k at level 200).

Definition print {S} (line : string) : M S unit :=
  fun w => (Returned tt,
            World (environ w) (ext w) (calls w) (stdout w ++ [line])).

(** os.getenv(key, default) *)
Definition os_getenv {S} (key : string) (default : option string)
  : M S (option string) :=
  fun w => (Returned (match environ w !! key with
                      | Some v => Some v
                      | None => default
                      end), w).

(** An external call: logged, then answered from the state of the external
    services. *)
Definition external {S A} (c : call) (f : S -> outcome A * S) : M S A :=
  fun w => let '(r, s') := f (ext w) in
           (r, World (environ w) s' (calls w ++ [c]) (stdout w)).

(** ** The external libraries *)

Class External (S : Type) := {
  (* int(datetime.datetime.now().timestamp()): the whole-second timestamp
     the interpreter computes from the wall clock (the conversion of the
     datetime to a float and its truncation are the interpreter's); the
     clock runs while the services work *)
  lib_timestamp : S -> Z;
  (* google.auth.load_credentials_from_file(path, scopes=scopes) *)
  lib_load_credentials_from_file :
    pyval -> pyval -> S -> outcome credentials * S;
  (* credentials.refresh(Request()) updates the object in place; its new
     state is the result here *)
  lib_refresh : credentials -> S -> outcome credentials * S;
  (* pyiceberg.catalog.load_catalog(name, **properties): may refuse *)
  lib_load_catalog : string -> gmap string pyval -> S -> outcome unit * S;
  (* catalog.create_table_if_not_exists(identifier, schema) *)
  lib_create_table_if_not_exists :
    catalog_client -> string -> list (string * string) ->
    S -> outcome iceberg_table * S;
  (* table.append(df), table.overwrite(df) *)
  lib_append : iceberg_table -> pyval -> S -> outcome unit * S;
  lib_overwrite : iceberg_table -> pyval -> S -> outcome unit * S;
  (* pipeline.run(mongodb(collection_names=...)): extracts the collections
     and hands every batch, with its table schema dictionary, to the
     destination callback *)
  lib_pipeline_run :
    dlt_pipeline -> (arrow_table -> gmap string string -> M S unit) ->
    list string -> M S (list string)
}.

(** int(datetime.datetime.now().timestamp()), read when it is evaluated. *)
Definition now_timestamp_int {S} `{!External S} : M S Z :=
  fun w => (Returned (lib_timestamp (ext w)), w).

(** ** Python built-ins used by the code *)

Definition py_type_name (v : pyval) : string :=
  match v with
  | PyNone => "NoneType"
  | PyStr _ => "str"
  | PyInt _ => "int"
  | PyList _ => "list"
  | PyCredentials _ => "Credentials"
  | PyTable _ => "pyarrow.lib.Table"
  end.

Definition no_attribute (ty attr : string) : exn :=
  Exn AttributeError
      ("'" +:+ ty +:+ "' object has no attribute '" +:+ attr +:+ "'").

(** len(v); a pyarrow table's length is its number of rows. *)
Definition py_len (v : pyval) : outcome nat :=
  match v with
  | PyStr s => Returned (String.length s)
  | PyList l => Returned (length l)
  | PyTable t => Returned (length (rows t))
  | _ => Raised (Exn TypeError
                   ("object of type '" +:+ py_type_name v +:+ "' has no len()"))
  end.

(** v == "s" for a string literal s *)
Definition py_eq_str (v : pyval) (s : string) : bool :=
  match v with
  | PyStr s' => bool_decide (s' = s)
  | _ => false
  end.

(** dict.get(key, default) *)
Definition dict_get (d : gmap string pyval) (key : string) (default : pyval)
  : pyval :=
  match d !! key with
  | Some v => v
  | None => default
  end.

(** str(v) of the result of dict.get(key) on a dictionary of strings, as an
    f-string formats it. *)
Definition format_opt (v : option string) : string :=
  match v with
  | Some s => s
  | None => "None"
  end.

(** s.split(sep), for a one-character separator *)
Fixpoint split (sep : Ascii.ascii) (s : string) : list string :=
  match s with
  | EmptyString => [EmptyString]
  | String c r =>
      if bool_decide (c = sep) then EmptyString :: split sep r
      else match split sep r with
           | [] => [String c EmptyString]
           | h :: t => String c h :: t
           end
  end.

(** pyarrow.Table.from_batches(batches): the batches share one schema. *)
Definition from_batches (batches : list arrow_table) : outcome arrow_table :=
  match batches with
  | [] => Raised (Exn ValueError "Must pass schema, or at least one RecordBatch")
  | b :: bs =>
      if forallb (fun b' => bool_decide (schema b' = schema b)) bs
      then Returned (ArrowTable (schema b) (concat (map rows (b :: bs))))
      else Raised (Exn (LibraryError "ArrowInvalid")
                       "Schema at index was different")
  end.

Definition lift {S A} (r : outcome A) : M S A := fun w => (r, w).

(** ** The program *)

Section Program.
Context {S : Type} `{!External S}.

(** *** dataos_utils.py *)

Definition default_scopes : pyval :=
  PyList ["https://www.googleapis.com/auth/cloud-platform"].

Definition get_access_token (service_account_file_path scopes : pyval)
  : M S credentials :=
  let! scopes :=
    match scopes with
    | PyNone => ret default_scopes
    | _ => let! n := lift (py_len scopes) in
           if (n <? 1)%nat then ret default_scopes else ret scopes
    end in
  let! credentials :=
    external (LoadCredentialsFromFile service_account_file_path scopes)
             (lib_load_credentials_from_file service_account_file_path scopes) in
  let! credentials :=
    external (CredentialsRefresh credentials) (lib_refresh credentials) in
  ret credentials.

Definition get_env_var (key : string) (default : option string) : M S string :=
  let! value := os_getenv key default in
  match value with
  | None => raise (Exn ValueError ("Environment variable '" +:+ key
                                   +:+ "' is required but not set."))
  | Some v => ret v
  end.

Definition get_iceberg_destination_config : M S (gmap string string) :=
  let! cloud_provider :=
    get_env_var "DESTINATION__ICEBERG__CONFIG__CLOUD_PROVIDER" None in
  let! catalog := get_env_var "DESTINATION__ICEBERG__CONFIG__CATALOG" None in
  let! warehouse_path :=
    get_env_var "DESTINATION__ICEBERG__CONFIG__WAREHOUSE_PATH" None in
  let! metastore_url :=
    get_env_var "DESTINATION__ICEBERG__CONFIG__METASTORE_URL" None in
  let! table :=
    get_env_var "DESTINATION__ICEBERG__CONFIG__TABLE"
                (Some "dlt_default_table") in
  let! namespace :=
    get_env_var "DESTINATION__ICEBERG__CONFIG__NAMESPACE"
                (Some "dlt_default_namespace") in
  ret (<["cloud_provider" := cloud_provider]>
       (<["catalog" := catalog]>
        (<["warehouse_path" := warehouse_path]>
         (<["metastore_url" := metastore_url]>
          (<["table" := table]>
           (<["namespace" := namespace]> ∅)))))).

Definition get_iceberg_credentials (cloud_provider : string)
  : M S (gmap string string) :=
  if bool_decide (cloud_provider = "gcs") then
    let! project := get_env_var "GCS__CREDENTIALS__PROJECT_ID" None in
    let! secret_file_path :=
      get_env_var "GCS__CREDENTIALS__SECRET_FILE_PATH" None in
    ret (<["project-is" := project]>
         (<["secret_file_path" := secret_file_path]> ∅))
  else if bool_decide (cloud_provider = "abfss") then
    let! suffix := get_env_var "ABFSS__CREDENTIALS__AZUREENDPOINTSUFFIX" None in
    let! account_name :=
      get_env_var "ABFSS__CREDENTIALS__AZURESTORAGEACCOUNTNAME" None in
    let! account_key :=
      get_env_var "ABFSS__CREDENTIALS__AZURESTORAGEACCOUNTKEY" None in
    ret (<["azureendpointsuffix" := suffix]>
         (<["azurestorageaccountname" := account_name]>
          (<["azurestorageaccountkey" := account_key]> ∅)))
  else if bool_decide (cloud_provider = "s3") then
    let! key_id := get_env_var "S3__CREDENTIALS__AWS_ACCESS_KEY_ID" None in
    let! secret_key :=
      get_env_var "S3__CREDENTIALS__AWS_SECRET_ACCESS_KEY" None in
    let! region := get_env_var "S3__CREDENTIALS__REGION" (Some "ap-south-1") in
    ret (<["aws_access_key_id" := key_id]>
         (<["aws_secret_access_key" := secret_key]>
          (<["region" := region]> ∅)))
  else ret ∅.

(** *** iceberg_writer.py *)

Record IcebergWriter := { catalog : catalog_client }.

(** load_catalog(name=..., **properties) *)
Definition load_catalog (name : string) (properties : gmap string pyval)
  : M S catalog_client :=
  do! external (LoadCatalog name properties)
               (lib_load_catalog name properties) in
  ret (Catalog name properties).

Definition s3_properties (connection : gmap string pyval)
  : gmap string pyval :=
  <["uri" := dict_get connection "metastore_url" (PyStr "")]>
  (<["s3.access-key-id" := dict_get connection "aws_access_key_id" (PyStr "")]>
   (<["s3.secret-access-key" :=
        dict_get connection "aws_secret_access_key" (PyStr "")]>
    (<["s3.region" := dict_get connection "region" (PyStr "ap-south-1")]> ∅))).

Definition abfss_properties (connection : gmap string pyval)
  : gmap string pyval :=
  <["py-io-impl" := PyStr "pyiceberg.io.fsspec.FsspecFileIO"]>
  (<["adls.account-name" :=
       dict_get connection "azurestorageaccountname" (PyStr "")]>
   (<["adls.account-key" :=
        dict_get connection "azurestorageaccountkey" (PyStr "")]>
    (<["uri" := dict_get connection "metastore_url" (PyStr "")]> ∅))).

Definition gcs_properties (connection : gmap string pyval)
           (token_expiry : Z) (access_token : credentials)
  : gmap string pyval :=
  <["py-io-impl" := PyStr "pyiceberg.io.fsspec.FsspecFileIO"]>
  (<["uri" := dict_get connection "metastore_url" (PyStr "")]>
   (<["gcs.project-id" := dict_get connection "project-id" (PyStr "")]>
    (<["gcs.default-bucket-location" :=
         dict_get connection "warehouse_path" (PyStr "")]>
     (<["gcs.oauth2.token-expires-at" := PyInt token_expiry]>
      (<["gcs.oauth2.token" := PyCredentials access_token]> ∅))))).

(** IcebergWriter.__init__ *)
Definition IcebergWriter_init (connection : gmap string pyval)
  : M S IcebergWriter :=
  let cloud_provider := dict_get connection "cloud_provider" PyNone in
  if py_eq_str cloud_provider "s3" then
    let warehouse_url := dict_get connection "warehouse_path" PyNone in
    let! cat := load_catalog "iceberg_catalog" (s3_properties connection) in
    ret {| catalog := cat |}
  else if py_eq_str cloud_provider "abfss" then
    let! cat := load_catalog "iceberg_catalog" (abfss_properties connection) in
    ret {| catalog := cat |}
  else if py_eq_str cloud_provider "gcs" then
    let secret_file_path := dict_get connection "secret_file_path" (PyStr "") in
    let scopes := dict_get connection "scopes" PyNone in
    let! access_token := get_access_token secret_file_path scopes in
    let! now := now_timestamp_int in
    let token_expiry := now + 10000 in
    let! cat := load_catalog "iceberg_catalog"
                  (gcs_properties connection token_expiry access_token) in
    ret {| catalog := cat |}
  else
    raise (Exn ValueError
      "Unsupported cloud provider. Supported providers are 's3', 'abfss', and 'gcp'.").

(** Writer.create_writer *)
Definition create_writer (connection : gmap string pyval) : M S IcebergWriter :=
  let cloud_provider := dict_get connection "cloud_provider" PyNone in
  if py_eq_str cloud_provider "s3" || py_eq_str cloud_provider "abfss"
     || py_eq_str cloud_provider "gcs"
  then IcebergWriter_init connection
  else raise (Exn ValueError
    "Unsupported cloud provider. Supported providers are 's3', 'abfss' and 'gcs'.").

(** IcebergWriter.validate_data *)
Definition validate_data (input_data : pyval) : M S bool :=
  match input_data with
  | PyTable t =>
      if (length (rows t) =? 0)%nat
      then raise (Exn ValueError "Input data cannot be empty.")
      else do! print "Input data is valid for Iceberg." in ret true
  | _ => raise (Exn ValueError "Input data must be a PyArrowTable.")
  end.

(** pyarrow_table.schema *)
Definition py_schema (v : pyval) : M S (list (string * string)) :=
  match v with
  | PyTable t => ret (schema t)
  | _ => raise (no_attribute (py_type_name v) "schema")
  end.

(** IcebergWriter.create_table_from_pyarrow; [None] is Python's None,
    which the function returns by falling off its end. *)
Definition create_table_from_pyarrow (self : IcebergWriter)
           (pyarrow_table : pyval) (destination : string)
  : M S (option iceberg_table) :=
  try_except
    (let! sch := py_schema pyarrow_table in
     let! table :=
       external (CreateTableIfNotExists (catalog self) destination sch)
                (lib_create_table_if_not_exists (catalog self) destination sch) in
     ret (Some table))
    (fun _ =>
       do! print ("Exception while creating table '" +:+ destination +:+ "'.") in
       ret None).

(** iceberg_table.append(input_data), on a table or on None *)
Definition table_append (iceberg_table : option iceberg_table)
           (input_data : pyval) : M S unit :=
  match iceberg_table with
  | Some t => external (TableAppend t input_data) (lib_append t input_data)
  | None => raise (no_attribute "NoneType" "append")
  end.

(** iceberg_table.overwrite(input_data), on a table or on None *)
Definition table_overwrite (iceberg_table : option iceberg_table)
           (input_data : pyval) : M S unit :=
  match iceberg_table with
  | Some t => external (TableOverwrite t input_data) (lib_overwrite t input_data)
  | None => raise (no_attribute "NoneType" "overwrite")
  end.

(** IcebergWriter.write *)
Definition write (self : IcebergWriter) (input_data : pyval)
           (destination mode : string) : M S unit :=
  do! validate_data input_data in
  let! iceberg_table := create_table_from_pyarrow self input_data destination in
  do! (if bool_decide (mode = "append") then
         table_append iceberg_table input_data
       else if bool_decide (mode = "overwrite") then
         table_overwrite iceberg_table input_data
       else raise (Exn ValueError ("Unsupported write mode: " +:+ mode))) in
  print ("Data successfully written to Iceberg table '" +:+ destination
         +:+ "' in " +:+ mode +:+ " mode.").

(** WriterFactory.get_writer, called with [connection=...] *)
Definition get_writer (writer_type : string) (connection : gmap string pyval)
  : M S IcebergWriter :=
  if bool_decide (writer_type = "iceberg") then IcebergWriter_init connection
  else raise (Exn ValueError ("Unsupported writer type: " +:+ writer_type)).

(** *** pipeline.py *)

(** The destination callback; dlt calls it with one batch of records and
    the schema dictionary of the table the batch belongs to. *)
Definition iceberg_insert (resources : arrow_table)
           (data_dict : gmap string string) : M S unit :=
  let! destination_config := get_iceberg_destination_config in
  let cloud_provider := default "" (destination_config !! "cloud_provider") in
  let! destination_credentials := get_iceberg_credentials cloud_provider in
  (* {**destination_config, **destination_credentials}: the right one wins *)
  let iceberg_connection := destination_credentials ∪ destination_config in
  let! iceberg_writer := IcebergWriter_init (PyStr <$> iceberg_connection) in
  let table_name :=
    if bool_decide (iceberg_connection !! "table" ≠ Some "dlt_default_table")
    then format_opt (iceberg_connection !! "table")
    else default "" (data_dict !! "name") in
  let namespace := format_opt (iceberg_connection !! "namespace") in
  let full_table_path := namespace +:+ "." +:+ table_name in
  let! pyarrow_table := lift (from_batches [resources]) in
  do! write iceberg_writer (PyTable pyarrow_table) full_table_path "overwrite" in
  print ("Data successfully written to Iceberg table " +:+ full_table_path
         +:+ "!").

(** load_select_collection_db; a pipeline passed by the caller is taken to
    have [iceberg_insert] as its destination, as the default one has. *)
Definition load_select_collection_db (pipeline : option dlt_pipeline)
  : M S (list string) :=
  let pipeline :=
    match pipeline with
    | None => Pipeline "mongo_to_postgres" "mongo_select" "parquet"
    | Some p => p
    end in
  let! names := os_getenv "SOURCES__MONGODB__COLLECTION_NAMES" None in
  let! collection_name :=
    match names with
    | Some s => ret (split ","%char s)
    | None => raise (no_attribute "NoneType" "split")
    end in
  do! (fun w => (Returned tt,
                 World (environ w) (ext w)
                       (calls w ++ [PipelineRun (pipeline_name pipeline)
                                                collection_name])
                       (stdout w))) in
  lib_pipeline_run pipeline iceberg_insert collection_name.

End Program.

(** ** Reference implementations of the external services *)

(** for x in l: f(x) *)
Fixpoint for_each {S A} (f : A -> M S unit) (l : list A) : M S unit :=
  match l with
  | [] => ret tt
  | x :: r => do! f x in for_each f r
  end.

(** Healthy services kept in memory: the metastore maps table identifiers
    to their schema and rows, the token server answers every request, the
    MongoDB source holds, per collection, the batches dlt will deliver, and
    the clock holds the whole-second timestamp. *)
Module Mem.

Record mem := Mem {
  tables : gmap string arrow_table;
  source : gmap string (list arrow_table);
  clock_s : Z
}.

Definition load_credentials (path scopes : pyval) (s : mem)
  : outcome credentials * mem :=
  (Returned (Credentials (match path with PyStr p => p | _ => "" end) None), s).

(** Refreshing takes a round trip to the token server, during which the
    clock moves on by a second. *)
Definition refresh (c : credentials) (s : mem) : outcome credentials * mem :=
  (Returned (Credentials (cred_account c) (Some "ya29.token")),
   Mem (tables s) (source s) (clock_s s + 1)).

Definition open_catalog (name : string) (properties : gmap string pyval)
           (s : mem) : outcome unit * mem :=
  (Returned tt, s).

Definition create_table_if_not_exists (cat : catalog_client)
           (destination : string) (sch : list (string * string)) (s : mem)
  : outcome iceberg_table * mem :=
  match tables s !! destination with
  | Some _ => (Returned (IcebergTable destination), s)
  | None => (Returned (IcebergTable destination),
             Mem (<[destination := ArrowTable sch []]> (tables s)) (source s) (clock_s s))
  end.

Definition stored_rows (s : mem) (t : iceberg_table) : list (list cell) :=
  match tables s !! tbl_identifier t with
  | Some old => rows old
  | None => []
  end.

Definition append (t : iceberg_table) (data : pyval) (s : mem)
  : outcome unit * mem :=
  match data with
  | PyTable d =>
      (Returned tt,
       Mem (<[tbl_identifier t := ArrowTable (schema d) (stored_rows s t ++ rows d)]>
              (tables s)) (source s) (clock_s s))
  | _ => (Raised (Exn TypeError "Expected PyArrow table"), s)
  end.

Definition overwrite (t : iceberg_table) (data : pyval) (s : mem)
  : outcome unit * mem :=
  match data with
  | PyTable d =>
      (Returned tt,
       Mem (<[tbl_identifier t := ArrowTable (schema d) (rows d)]> (tables s))
           (source s) (clock_s s))
  | _ => (Raised (Exn TypeError "Expected PyArrow table"), s)
  end.

(** dlt delivers the batches of the selected collections in order; a
    failing callback ends the run. *)
Definition pipeline_run (pipeline : dlt_pipeline)
           (callback : arrow_table -> gmap string string -> M mem unit)
           (collection_names : list string) : M mem (list string) :=
  fun w =>
    let batches :=
      flat_map (fun n => map (fun b => (b, n)) (default [] (source (ext w) !! n)))
               collection_names in
    bind (for_each (fun bn => callback (fst bn) {[ "name" := snd bn ]}) batches)
         (fun _ => ret collection_names) w.

#[global] Instance mem_external : External mem := {
  lib_timestamp := clock_s;
  lib_load_credentials_from_file := load_credentials;
  lib_refresh := refresh;
  lib_load_catalog := open_catalog;
  lib_create_table_if_not_exists := create_table_if_not_exists;
  lib_append := append;
  lib_overwrite := overwrite;
  lib_pipeline_run := pipeline_run
}.

End Mem.

(** A metastore that cannot be reached: the client object is built, and
    every request to the catalog raises. *)
Module Down.

Definition unreachable : exn :=
  Exn (LibraryError "ConnectionError") "metastore unreachable".

#[global] Instance down_external : External unit := {
  lib_timestamp := fun _ => 1700000000;
  lib_load_credentials_from_file := fun p _ s =>
    (Returned (Credentials (match p with PyStr p => p | _ => "" end) None), s);
  lib_refresh := fun c s =>
    (Returned (Credentials (cred_account c) (Some "ya29.token")), s);
  lib_load_catalog := fun _ _ s => (Returned tt, s);
  lib_create_table_if_not_exists := fun _ _ _ s => (Raised unreachable, s);
  lib_append := fun _ _ s => (Raised unreachable, s);
  lib_overwrite := fun _ _ s => (Raised unreachable, s);
  lib_pipeline_run := fun _ _ names => ret names
}.

End Down.

(** ** Vocabulary of the properties *)

(** The inputs [validate_data] refuses: an empty columnar table, or a value
    that is no columnar table. *)
Inductive invalid_input : pyval -> Prop :=
| invalid_empty (t : arrow_table) : rows t = [] -> invalid_input (PyTable t)
| invalid_not_table (v : pyval) :
    (forall t, v <> PyTable t) -> invalid_input v.

(** The provider values the writer accepts. *)
Definition supported_provider (v : pyval) : Prop :=
  v = PyStr "s3" \/ v = PyStr "abfss" \/ v = PyStr "gcs".

(** World after one more external call and one more printed line. *)
Definition after_call {S} (w : world S) (s' : S) (c : call) (lines : list string)
  : world S :=
  World (environ w) s' (calls w ++ [c]) (stdout w ++ lines).

(** An external call that answers, whatever the state of the services. *)
Definition succeeds {S A} (f : S -> outcome A * S) : Prop :=
  forall s, exists a s', f s = (Returned a, s').

(** The token server hands out and refreshes credentials and the catalog
    endpoint accepts a client. *)
Definition services_available {S} `{!External S} : Prop :=
  (forall path scopes, succeeds (lib_load_credentials_from_file path scopes)) /\
  (forall c, succeeds (lib_refresh c)) /\
  (forall name properties, succeeds (lib_load_catalog name properties)).

(** The catalog creates, appends to and overwrites tables. *)
Definition catalog_operations_succeed {S} `{!External S} : Prop :=
  (forall cat destination sch,
      succeeds (lib_create_table_if_not_exists cat destination sch)) /\
  (forall tb t, succeeds (lib_append tb (PyTable t))) /\
  (forall tb t, succeeds (lib_overwrite tb (PyTable t))).

(** The scopes [get_access_token] can take the length of. *)
Definition scopes_usable (v : pyval) : Prop :=
  v = PyNone \/ exists n, py_len v = Returned n.

(** The catalog properties each provider requires. *)
Definition provider_keys (p : string) : gset string :=
  if bool_decide (p = "s3") then
    {[ "uri"; "s3.access-key-id"; "s3.secret-access-key"; "s3.region" ]}
  else if bool_decide (p = "abfss") then
    {[ "py-io-impl"; "adls.account-name"; "adls.account-key"; "uri" ]}
  else if bool_decide (p = "gcs") then
    {[ "py-io-impl"; "uri"; "gcs.project-id"; "gcs.default-bucket-location";
       "gcs.oauth2.token-expires-at"; "gcs.oauth2.token" ]}
  else ∅.

(** [only_calls P m]: whatever [m] does, it only appends to the call log,
    and every call it appends satisfies [P]. *)
Definition only_calls {S A} (P : call -> Prop) (m : M S A) : Prop :=
  forall w r w', m w = (r, w') ->
    exists new, calls w' = calls w ++ new /\ Forall P new.

Definition not_append (c : call) : Prop := is_append c = false.

Definition not_catalog (c : call) : Prop := is_catalog_call c = false.

(** An environment that selects gcs and sets every required variable;
    [project] is the value of GCS__CREDENTIALS__PROJECT_ID. *)
Definition gcs_environment (env : gmap string string) (project : string) : Prop :=
  env !! "DESTINATION__ICEBERG__CONFIG__CLOUD_PROVIDER" = Some "gcs" /\
  is_Some (env !! "DESTINATION__ICEBERG__CONFIG__CATALOG") /\
  is_Some (env !! "DESTINATION__ICEBERG__CONFIG__WAREHOUSE_PATH") /\
  is_Some (env !! "DESTINATION__ICEBERG__CONFIG__METASTORE_URL") /\
  env !! "GCS__CREDENTIALS__PROJECT_ID" = Some project /\
  is_Some (env !! "GCS__CREDENTIALS__SECRET_FILE_PATH").

(** Does [msg] contain [key]? *)
Fixpoint is_prefix (p s : string) : bool :=
  match p, s with
  | EmptyString, _ => true
  | String a p', String b s' => bool_decide (a = b) && is_prefix p' s'
  | String _ _, EmptyString => false
  end.

Fixpoint mentions (key msg : string) : bool :=
  is_prefix key msg ||
  match msg with
  | EmptyString => false
  | String _ rest => mentions key rest
  end.

(** The variables the destination callback requires, in the order it reads
    them, when the provider variable holds [p]. *)
Definition required_variables (p : string) : list string :=
  [ "DESTINATION__ICEBERG__CONFIG__CLOUD_PROVIDER";
    "DESTINATION__ICEBERG__CONFIG__CATALOG";
    "DESTINATION__ICEBERG__CONFIG__WAREHOUSE_PATH";
    "DESTINATION__ICEBERG__CONFIG__METASTORE_URL" ] ++
  (if bool_decide (p = "gcs") then
     [ "GCS__CREDENTIALS__PROJECT_ID"; "GCS__CREDENTIALS__SECRET_FILE_PATH" ]
   else if bool_decide (p = "abfss") then
     [ "ABFSS__CREDENTIALS__AZUREENDPOINTSUFFIX";
       "ABFSS__CREDENTIALS__AZURESTORAGEACCOUNTNAME";
       "ABFSS__CREDENTIALS__AZURESTORAGEACCOUNTKEY" ]
   else if bool_decide (p = "s3") then
     [ "S3__CREDENTIALS__AWS_ACCESS_KEY_ID";
       "S3__CREDENTIALS__AWS_SECRET_ACCESS_KEY" ]
   else []).

(** The table the destination callback writes to: the configured table in
    the configured namespace, or the table named by the batch's schema
    dictionary when no table is configured. *)
Definition destination_of (env data_dict : gmap string string) : string :=
  let table :=
    default "dlt_default_table" (env !! "DESTINATION__ICEBERG__CONFIG__TABLE") in
  let namespace :=
    default "dlt_default_namespace"
            (env !! "DESTINATION__ICEBERG__CONFIG__NAMESPACE") in
  namespace +:+ "." +:+
  (if bool_decide (table <> "dlt_default_table") then table
   else default "" (data_dict !! "name")).

(** ** Sample data *)

Module Sample.

Definition users_batch : arrow_table :=
  ArrowTable [("_id", "string"); ("age", "int64")] [[CStr "u1"; CInt 31]].

Definition orders_batch : arrow_table :=
  ArrowTable [("_id", "string"); ("age", "int64")] [[CStr "u2"; CInt 47]].

Definition empty_batch : arrow_table :=
  ArrowTable [("_id", "string"); ("age", "int64")] [].

Definition s3_connection : gmap string pyval :=
  <["cloud_provider" := PyStr "s3"]>
  (<["warehouse_path" := PyStr "s3://lake/warehouse"]>
   (<["metastore_url" := PyStr "http://metastore:8181"]>
    (<["aws_access_key_id" := PyStr "AKIAEXAMPLE"]>
     (<["aws_secret_access_key" := PyStr "secret"]>
      (<["region" := PyStr "eu-west-1"]> ∅))))).

Definition gcs_connection : gmap string pyval :=
  <["cloud_provider" := PyStr "gcs"]>
  (<["warehouse_path" := PyStr "gs://lake/warehouse"]>
   (<["metastore_url" := PyStr "http://metastore:8181"]>
    (<["project-id" := PyStr "analytics-prod"]>
     (<["secret_file_path" := PyStr "/etc/gcs/key.json"]> ∅)))).

Definition azure_gov_connection : gmap string pyval :=
  <["cloud_provider" := PyStr "azure"]>
  (<["metastore_url" := PyStr "http://metastore:8181"]> ∅).

Definition gcs_environ : gmap string string :=
  <["DESTINATION__ICEBERG__CONFIG__CLOUD_PROVIDER" := "gcs"]>
  (<["DESTINATION__ICEBERG__CONFIG__CATALOG" := "lake"]>
   (<["DESTINATION__ICEBERG__CONFIG__WAREHOUSE_PATH" := "gs://lake/warehouse"]>
    (<["DESTINATION__ICEBERG__CONFIG__METASTORE_URL" := "http://metastore:8181"]>
     (<["GCS__CREDENTIALS__PROJECT_ID" := "analytics-prod"]>
      (<["GCS__CREDENTIALS__SECRET_FILE_PATH" := "/etc/gcs/key.json"]> ∅))))).

Definition s3_environ : gmap string string :=
  <["DESTINATION__ICEBERG__CONFIG__CLOUD_PROVIDER" := "s3"]>
  (<["DESTINATION__ICEBERG__CONFIG__CATALOG" := "lake"]>
   (<["DESTINATION__ICEBERG__CONFIG__WAREHOUSE_PATH" := "s3://lake/warehouse"]>
    (<["DESTINATION__ICEBERG__CONFIG__METASTORE_URL" := "http://metastore:8181"]>
     (<["DESTINATION__ICEBERG__CONFIG__TABLE" := "events"]>
      (<["DESTINATION__ICEBERG__CONFIG__NAMESPACE" := "ns"]>
       (<["S3__CREDENTIALS__AWS_ACCESS_KEY_ID" := "AKIAEXAMPLE"]>
        (<["S3__CREDENTIALS__AWS_SECRET_ACCESS_KEY" := "secret"]>
         (<["SOURCES__MONGODB__COLLECTION_NAMES" := "users,orders"]> ∅)))))))).

(** A start of the process: nothing stored, nothing called, nothing
    printed. *)
Definition start (env : gmap string string) : world Mem.mem :=
  World env (Mem.Mem ∅ ∅ 1700000000) [] [].

(** The same, with one batch waiting in each of two collections. *)
Definition start_with_source (env : gmap string string) : world Mem.mem :=
  World env
        (Mem.Mem ∅ (<["users" := [users_batch]]> (<["orders" := [orders_batch]]> ∅))
                 1700000000)
        [] [].

(** The same, after an earlier batch was written to "ns.events". *)
Definition start_after_users (env : gmap string string) : world Mem.mem :=
World env (Mem.Mem (<["ns.events" := users_batch]> ∅) ∅ 1700000000) [] [].

Definition start_down : world unit := World ∅ tt [] [].

Definition a_writer : IcebergWriter :=
  {| catalog := Catalog "iceberg_catalog" (s3_properties s3_connection) |}.

End Sample.

(** ** Further vocabulary *)

(** sep.join(l) *)
Fixpoint join (sep : string) (l : list string) : string :=
  match l with
  | [] => EmptyString
  | [x] => x
  | x :: r => x +:+ sep +:+ join sep r
  end.

(** s.count(c), for a character c *)
Fixpoint occurrences (c : Ascii.ascii) (s : string) : nat :=
  match s with
  | EmptyString => 0%nat
  | String a r => ((if bool_decide (a = c) then 1 else 0) + occurrences c r)%nat
  end.

(** The scopes [get_access_token] hands to google.auth: the default scope
    when none or an empty one is given. *)
Definition effective_scopes (scopes : pyval) : pyval :=
  match scopes with
  | PyNone | PyStr EmptyString | PyList [] => default_scopes
  | PyTable t => if (length (rows t) =? 0)%nat then default_scopes else scopes
  | _ => scopes
  end.

(** The connection keys that decide what the constructor does, per
    provider value. *)
Definition keys_used (provider : pyval) : gset string :=
  if py_eq_str provider "s3" then
    {[ "cloud_provider"; "metastore_url"; "aws_access_key_id";
       "aws_secret_access_key"; "region" ]}
  else if py_eq_str provider "abfss" then
    {[ "cloud_provider"; "azurestorageaccountname"; "azurestorageaccountkey";
       "metastore_url" ]}
  else if py_eq_str provider "gcs" then
    {[ "cloud_provider"; "secret_file_path"; "scopes"; "metastore_url";
       "project-id"; "warehouse_path" ]}
  else {[ "cloud_provider" ]}.

(** Services like [Mem], except that google.auth finds no key file at an
    empty path. *)
Module Strict.

Definition no_key_file : exn :=
  Exn (LibraryError "DefaultCredentialsError") "File  was not found.".

Definition load_credentials (path scopes : pyval) (s : Mem.mem)
  : outcome credentials * Mem.mem :=
  match path with
  | PyStr (String c p) => (Returned (Credentials (String c p) None), s)
  | _ => (Raised no_key_file, s)
  end.

Definition strict_external : External Mem.mem := {|
  lib_timestamp := Mem.clock_s;
  lib_load_credentials_from_file := load_credentials;
  lib_refresh := Mem.refresh;
  lib_load_catalog := Mem.open_catalog;
  lib_create_table_if_not_exists := Mem.create_table_if_not_exists;
  lib_append := Mem.append;
  lib_overwrite := Mem.overwrite;
  lib_pipeline_run := Mem.pipeline_run
|}.

End Strict.

(** The first variable of a list that the environment does not set. *)
Fixpoint first_unset (env : gmap string string) (vars : list string)
  : option string :=
  match vars with
  | [] => None
  | v :: rest =>
      match env !! v with
      | None => Some v
      | Some _ => first_unset env rest
      end
  end.

(** The dictionary [get_iceberg_destination_config] builds from an
    environment that sets the four required variables to [p], [cat], [wh]
    and [ms]. *)
Definition destination_config_of (env : gmap string string)
           (p cat wh ms : string) : gmap string string :=
  <["cloud_provider" := p]>
  (<["catalog" := cat]>
   (<["warehouse_path" := wh]>
    (<["metastore_url" := ms]>
     (<["table" := default "dlt_default_table"
          (env !! "DESTINATION__ICEBERG__CONFIG__TABLE")]>
      (<["namespace" := default "dlt_default_namespace"
           (env !! "DESTINATION__ICEBERG__CONFIG__NAMESPACE")]> ∅))))).

Definition config_set (env : gmap string string) (p cat wh ms : string) : Prop :=
  env !! "DESTINATION__ICEBERG__CONFIG__CLOUD_PROVIDER" = Some p /\
  env !! "DESTINATION__ICEBERG__CONFIG__CATALOG" = Some cat /\
  env !! "DESTINATION__ICEBERG__CONFIG__WAREHOUSE_PATH" = Some wh /\
  env !! "DESTINATION__ICEBERG__CONFIG__METASTORE_URL" = Some ms.

(** [keeps_environ m]: [m] leaves os.environ as it found it. *)
Definition keeps_environ {S A} (m : M S A) : Prop :=
  forall w r w', m w = (r, w') -> environ w' = environ w.

(** A catalog that hands out table handles but refuses every commit. *)
Module ReadOnly.

Definition commit_failed : exn :=
  Exn (LibraryError "CommitFailedException") "catalog is read-only".

Definition read_only_external : External Mem.mem := {|
  lib_timestamp := Mem.clock_s;
  lib_load_credentials_from_file := Mem.load_credentials;
  lib_refresh := Mem.refresh;
  lib_load_catalog := Mem.open_catalog;
  lib_create_table_if_not_exists := fun _ destination _ s =>
    (Returned (IcebergTable destination), s);
  lib_append := fun _ _ s => (Raised commit_failed, s);
  lib_overwrite := fun _ _ s => (Raised commit_failed, s);
  lib_pipeline_run := Mem.pipeline_run
|}.

End ReadOnly.

(** ** Further sample data *)

Module Sample_more.

Definition abfss_environ : gmap string string :=
  <["DESTINATION__ICEBERG__CONFIG__CLOUD_PROVIDER" := "abfss"]>
  (<["DESTINATION__ICEBERG__CONFIG__CATALOG" := "lake"]>
   (<["DESTINATION__ICEBERG__CONFIG__WAREHOUSE_PATH" := "abfss://lake@acct/warehouse"]>
    (<["DESTINATION__ICEBERG__CONFIG__METASTORE_URL" := "http://metastore:8181"]>
     (<["ABFSS__CREDENTIALS__AZUREENDPOINTSUFFIX" := "core.windows.net"]>
      (<["ABFSS__CREDENTIALS__AZURESTORAGEACCOUNTNAME" := "acct"]>
       (<["ABFSS__CREDENTIALS__AZURESTORAGEACCOUNTKEY" := "key=="]> ∅)))))).

(** The provider is chosen, nothing else is set. *)
Definition bare_environ : gmap string string :=
  <["DESTINATION__ICEBERG__CONFIG__CLOUD_PROVIDER" := "s3"]>
  (<["S3__CREDENTIALS__AWS_ACCESS_KEY_ID" := "AKIAEXAMPLE"]> ∅).

Definition azure_environ : gmap string string :=
  <["DESTINATION__ICEBERG__CONFIG__CLOUD_PROVIDER" := "azure"]>
  (<["DESTINATION__ICEBERG__CONFIG__CATALOG" := "lake"]>
   (<["DESTINATION__ICEBERG__CONFIG__WAREHOUSE_PATH" := "wasb://lake"]>
    (<["DESTINATION__ICEBERG__CONFIG__METASTORE_URL" := "http://metastore:8181"]> ∅))).

Definition read_only_scopes : pyval :=
  PyList ["https://www.googleapis.com/auth/devstorage.read_only"].

Definition gcs_connection_int_scopes : gmap string pyval :=
  <["cloud_provider" := PyStr "gcs"]> (<["scopes" := PyInt 3]> ∅).

(** gcs, with no key file named. *)
Definition gcs_connection_no_key : gmap string pyval :=
  <["cloud_provider" := PyStr "gcs"]>
  (<["metastore_url" := PyStr "http://metastore:8181"]> ∅).

Definition users_dict : gmap string string := {[ "name" := "users" ]}.

Definition orders_dict : gmap string string := {[ "name" := "orders" ]}.

End Sample_more.

(** ** Proof support *)

Ltac unfold_monad :=
  unfold bind, ret, raise, try_except, lift, print, external, os_getenv,
    now_timestamp_int in *.

Lemma length_eqb_zero {A} (l : list A) :
  l <> [] -> (length l =? 0)%nat = false.
Proof. destruct l; [congruence | reflexivity]. Qed.

(** ** Properties of the writer *)

Section Writer_properties.
Context {S : Type} `{!External S}.

Lemma validate_data_invalid (v : pyval) (w : world S) :
  invalid_input v ->
  exists msg, validate_data v w = (Raised (Exn ValueError msg), w).
Proof.
  intros [t Hrows | v' Hnot].
  - unfold validate_data. rewrite Hrows. simpl. eauto.
  - destruct v'; simpl; unfold raise; eauto.
    exfalso. by eapply Hnot.
Qed.

Lemma validate_data_valid (t : arrow_table) (w : world S) :
  rows t <> [] ->
  validate_data (PyTable t) w =
  (Returned true,
   World (environ w) (ext w) (calls w)
         (stdout w ++ ["Input data is valid for Iceberg."])).
Proof.
  intros Hne. unfold validate_data. rewrite (length_eqb_zero _ Hne).
  reflexivity.
Qed.

(** [create_table_from_pyarrow] never raises: it returns the table the
    catalog gave, or None after printing. *)
Lemma create_table_from_pyarrow_returns (self : IcebergWriter) (v : pyval)
      (destination : string) (w : world S) :
  exists r w', create_table_from_pyarrow self v destination w = (Returned r, w').
Proof.
  unfold create_table_from_pyarrow, py_schema. unfold_monad.
  destruct v; simpl; eauto.
  destruct (lib_create_table_if_not_exists _ _ _ _) as [[tb|e] s']; simpl; eauto.
Qed.

(** C4: [write] on an empty columnar table, or on a value that is no
    columnar table, raises a ValueError and leaves the world as it was: no
    call reached the catalog (no table creation, no append, no
    overwrite). *)
Theorem write_invalid_input_raises (self : IcebergWriter) (v : pyval)
        (destination mode : string) (w : world S) :
  invalid_input v ->
  exists msg,
    write self v destination mode w = (Raised (Exn ValueError msg), w).
Proof.
  intros Hinv. destruct (validate_data_invalid v w Hinv) as [msg Hv].
  exists msg. unfold write, bind. by rewrite Hv.
Qed.

(** C5: [write] on a non-empty columnar table with a mode other than
    "append" and "overwrite" raises the ValueError for an unsupported
    write mode. *)
Theorem write_unsupported_mode_raises (self : IcebergWriter)
        (t : arrow_table) (destination mode : string) (w : world S) :
  rows t <> [] -> mode <> "append" -> mode <> "overwrite" ->
  exists w',
    write self (PyTable t) destination mode w =
    (Raised (Exn ValueError ("Unsupported write mode: " +:+ mode)), w').
Proof.
  intros Hne Happ Hov. unfold write. unfold bind at 1.
  rewrite (validate_data_valid t w Hne). unfold bind at 1.
  edestruct (create_table_from_pyarrow_returns self (PyTable t) destination)
    as (r & w' & ->).
  rewrite !bool_decide_eq_false_2 by done.
  unfold_monad. eauto.
Qed.

End Writer_properties.

Lemma py_eq_str_false (v : pyval) (s : string) :
  v <> PyStr s -> py_eq_str v s = false.
Proof.
  destruct v; simpl; try done.
  intros Hne. apply bool_decide_eq_false_2. congruence.
Qed.

Section Writer_failures.
Context {S : Type} `{!External S}.

(** C6: a connection whose cloud_provider value is none of "s3", "abfss"
    and "gcs" (or is missing) makes both [Writer.create_writer] and
    [IcebergWriter] itself raise a ValueError, before any external call. *)
Theorem unsupported_provider_raises (connection : gmap string pyval)
        (w : world S) :
  ~ supported_provider (dict_get connection "cloud_provider" PyNone) ->
  (exists msg, create_writer connection w = (Raised (Exn ValueError msg), w)) /\
  (exists msg, IcebergWriter_init connection w = (Raised (Exn ValueError msg), w)).
Proof.
  intros Hun. unfold supported_provider in Hun.
  unfold create_writer, IcebergWriter_init.
  rewrite !py_eq_str_false by tauto. simpl. unfold raise. eauto.
Qed.

(** C1: when the catalog's create_table_if_not_exists raises, whatever
    the destination and the exception, [create_table_from_pyarrow] prints
    and returns None; [write] then calls append (or overwrite) on that
    None, which raises the AttributeError of NoneType, and no append or
    overwrite reaches the catalog. *)
Theorem create_failure_is_swallowed (self : IcebergWriter) (t : arrow_table)
        (destination : string) (e : exn) (w : world S) (s' : S) :
  lib_create_table_if_not_exists (catalog self) destination (schema t) (ext w)
    = (Raised e, s') ->
  let attempt := CreateTableIfNotExists (catalog self) destination (schema t) in
  let complaint := "Exception while creating table '" +:+ destination +:+ "'." in
  create_table_from_pyarrow self (PyTable t) destination w
    = (Returned None, after_call w s' attempt [complaint]) /\
  (rows t <> [] ->
   let w' := after_call w s' attempt
               ["Input data is valid for Iceberg."; complaint] in
   write self (PyTable t) destination "append" w
     = (Raised (no_attribute "NoneType" "append"), w') /\
   write self (PyTable t) destination "overwrite" w
     = (Raised (no_attribute "NoneType" "overwrite"), w')).
Proof.
  intros Hfail attempt complaint. split.
  - unfold create_table_from_pyarrow, py_schema. unfold_monad. simpl.
    by rewrite Hfail.
  - intros Hne w'.
    split; unfold write; unfold bind at 1;
      rewrite (validate_data_valid t w Hne); unfold bind at 1;
      unfold create_table_from_pyarrow, py_schema; unfold_monad; simpl;
      rewrite Hfail; simpl; rewrite <- app_assoc; reflexivity.
Qed.

End Writer_failures.

(** ** Construction of the writer *)

Section Construction.
Context {S : Type} `{!External S}.

Lemma load_catalog_returns (name : string) (properties : gmap string pyval)
      (w : world S) :
  succeeds (lib_load_catalog name properties) ->
  exists s',
    load_catalog name properties w =
    (Returned (Catalog name properties),
     after_call w s' (LoadCatalog name properties) []).
Proof.
  intros Hok. destruct (Hok (ext w)) as ([] & s' & Hs').
  exists s'. unfold load_catalog, after_call. unfold_monad.
  rewrite Hs'. by rewrite app_nil_r.
Qed.

Lemma get_access_token_returns (path scopes : pyval) (w : world S) :
  services_available -> scopes_usable scopes ->
  exists sc cred tok s1 s2,
    lib_load_credentials_from_file path sc (ext w) = (Returned cred, s1) /\
    lib_refresh cred s1 = (Returned tok, s2) /\
    get_access_token path scopes w =
    (Returned tok,
     World (environ w) s2
           (calls w ++ [LoadCredentialsFromFile path sc; CredentialsRefresh cred])
           (stdout w)).
Proof.
  intros (Hload & Hrefresh & _) Hsc.
  assert (exists sc,
    (match scopes with
     | PyNone => ret default_scopes
     | _ => let! n := lift (py_len scopes) in
            if (n <? 1)%nat then ret default_scopes else ret scopes
     end) w = (Returned sc, w)) as [sc Hsc'].
  { destruct Hsc as [-> | [n Hn]]; [by eexists|].
    destruct scopes; simpl in Hn; try done; unfold_monad; simpl;
      case_match; eauto. }
  destruct (Hload path sc (ext w)) as (cred & s1 & H1).
  destruct (Hrefresh cred s1) as (tok & s2 & H2).
  exists sc, cred, tok, s1, s2. split_and!; [done..|].
  unfold get_access_token. unfold bind at 1. rewrite Hsc'.
  unfold_monad. rewrite H1. simpl. rewrite H2. by rewrite <- app_assoc.
Qed.

(** Construction for gcs, when the services answer. *)
Lemma init_gcs_returns (connection : gmap string pyval) (w : world S) :
  services_available ->
  dict_get connection "cloud_provider" PyNone = PyStr "gcs" ->
  scopes_usable (dict_get connection "scopes" PyNone) ->
  exists sc cred tok s1 s2 s3,
    lib_load_credentials_from_file
      (dict_get connection "secret_file_path" (PyStr "")) sc (ext w)
      = (Returned cred, s1) /\
    lib_refresh cred s1 = (Returned tok, s2) /\
    let properties :=
      gcs_properties connection (lib_timestamp s2 + 10000) tok in
    IcebergWriter_init connection w =
    (Returned {| catalog := Catalog "iceberg_catalog" properties |},
     World (environ w) s3
           (calls w ++
              [LoadCredentialsFromFile
                 (dict_get connection "secret_file_path" (PyStr "")) sc;
               CredentialsRefresh cred;
               LoadCatalog "iceberg_catalog" properties])
           (stdout w)).
Proof.
  intros Hsrv Hp Hsc.
  destruct (get_access_token_returns
              (dict_get connection "secret_file_path" (PyStr ""))
              (dict_get connection "scopes" PyNone) w Hsrv Hsc)
    as (sc & cred & tok & s1 & s2 & H1 & H2 & Htok).
  exists sc, cred, tok, s1, s2.
  destruct Hsrv as (_ & _ & Hcat).
  set (properties :=
         gcs_properties connection (lib_timestamp s2 + 10000) tok).
  destruct (Hcat "iceberg_catalog" properties s2) as ([] & s3 & H3).
  exists s3. split_and!; [done..|].
  unfold IcebergWriter_init. rewrite Hp. simpl.
  unfold bind at 1. rewrite Htok.
  unfold load_catalog. unfold_monad. simpl. fold properties.
  rewrite H3. by rewrite <- app_assoc.
Qed.

Lemma init_s3_returns (connection : gmap string pyval) (w : world S) :
  services_available ->
  dict_get connection "cloud_provider" PyNone = PyStr "s3" ->
  exists s',
    IcebergWriter_init connection w =
    (Returned {| catalog := Catalog "iceberg_catalog" (s3_properties connection) |},
     after_call w s' (LoadCatalog "iceberg_catalog" (s3_properties connection)) []).
Proof.
  intros (_ & _ & Hcat) Hp.
  destruct (load_catalog_returns "iceberg_catalog" (s3_properties connection) w)
    as [s' Hs']; [done|].
  exists s'. unfold IcebergWriter_init. rewrite Hp. simpl.
  unfold bind. by rewrite Hs'.
Qed.

Lemma init_abfss_returns (connection : gmap string pyval) (w : world S) :
  services_available ->
  dict_get connection "cloud_provider" PyNone = PyStr "abfss" ->
  exists s',
    IcebergWriter_init connection w =
    (Returned {| catalog := Catalog "iceberg_catalog" (abfss_properties connection) |},
     after_call w s' (LoadCatalog "iceberg_catalog" (abfss_properties connection)) []).
Proof.
  intros (_ & _ & Hcat) Hp.
  destruct (load_catalog_returns "iceberg_catalog" (abfss_properties connection) w)
    as [s' Hs']; [done|].
  exists s'. unfold IcebergWriter_init. rewrite Hp. simpl.
  unfold bind. by rewrite Hs'.
Qed.

Lemma dom_s3_properties (connection : gmap string pyval) :
  dom (s3_properties connection) = provider_keys "s3".
Proof. unfold s3_properties. rewrite !dom_insert_L, dom_empty_L. set_solver. Qed.

Lemma dom_abfss_properties (connection : gmap string pyval) :
  dom (abfss_properties connection) = provider_keys "abfss".
Proof. unfold abfss_properties. rewrite !dom_insert_L, dom_empty_L. set_solver. Qed.

Lemma dom_gcs_properties (connection : gmap string pyval) (expiry : Z)
      (tok : credentials) :
  dom (gcs_properties connection expiry tok) = provider_keys "gcs".
Proof. unfold gcs_properties. rewrite !dom_insert_L, dom_empty_L. set_solver. Qed.

(** C2: for each of s3, abfss and gcs, constructing the writer (the
    services answering) hands load_catalog a parameter set whose keys are
    exactly the keys of that provider; a key that only another provider
    requires is absent. *)
Theorem init_builds_exactly_provider_keys (connection : gmap string pyval)
        (p : string) (w : world S) :
  services_available ->
  dict_get connection "cloud_provider" PyNone = PyStr p ->
  p = "s3" \/ p = "abfss" \/ p = "gcs" ->
  scopes_usable (dict_get connection "scopes" PyNone) ->
  exists writer w' (before : list call),
    IcebergWriter_init connection w = (Returned writer, w') /\
    cat_name (catalog writer) = "iceberg_catalog" /\
    calls w' = (calls w ++ before ++
                [LoadCatalog "iceberg_catalog" (cat_properties (catalog writer))])%list /\
    dom (cat_properties (catalog writer)) = provider_keys p /\
    (forall q k, k ∈ provider_keys q -> k ∉ provider_keys p ->
                 cat_properties (catalog writer) !! k = None).
Proof.
  intros Hsrv Hp Hsup Hsc.
  assert (forall writer : IcebergWriter,
             dom (cat_properties (catalog writer)) = provider_keys p ->
             forall (q k : string), k ∈ provider_keys q -> k ∉ provider_keys p ->
               cat_properties (catalog writer) !! k = None) as Hother.
  { intros writer Hdom q k _ Hk. apply not_elem_of_dom. by rewrite Hdom. }
  destruct Hsup as [-> | [-> | ->]].
  - destruct (init_s3_returns connection w Hsrv Hp) as [s' Hinit].
    eexists _, _, []. split; [exact Hinit|]. simpl.
    split_and!; [done | done | apply dom_s3_properties |].
    apply (Hother {| catalog := Catalog "iceberg_catalog" (s3_properties connection) |}).
    apply dom_s3_properties.
  - destruct (init_abfss_returns connection w Hsrv Hp) as [s' Hinit].
    eexists _, _, []. split; [exact Hinit|]. simpl.
    split_and!; [done | done | apply dom_abfss_properties |].
    apply (Hother {| catalog := Catalog "iceberg_catalog" (abfss_properties connection) |}).
    apply dom_abfss_properties.
  - destruct (init_gcs_returns connection w Hsrv Hp Hsc)
      as (sc & cred & tok & s1 & s2 & s3 & _ & _ & Hinit).
    eexists _, _, [_; _]. split; [exact Hinit|]. simpl.
    split_and!; [done | done | apply dom_gcs_properties |].
    apply (Hother {| catalog := Catalog "iceberg_catalog" (gcs_properties connection _ tok) |}).
    apply dom_gcs_properties.
Qed.

(** C7: for gcs, constructing the writer loads the service-account
    credentials and refreshes them through google.auth, then configures
    the catalog with the refreshed credentials as gcs.oauth2.token and
    with gcs.oauth2.token-expires-at set to the current timestamp, that is
    int(datetime.datetime.now().timestamp()) as evaluated once the
    credentials are refreshed, plus 10000. *)
Theorem init_gcs_token_and_expiry (connection : gmap string pyval)
        (w : world S) :
  services_available ->
  dict_get connection "cloud_provider" PyNone = PyStr "gcs" ->
  scopes_usable (dict_get connection "scopes" PyNone) ->
  exists writer w' sc cred tok s1 s2,
    IcebergWriter_init connection w = (Returned writer, w') /\
    lib_load_credentials_from_file
      (dict_get connection "secret_file_path" (PyStr "")) sc (ext w)
      = (Returned cred, s1) /\
    lib_refresh cred s1 = (Returned tok, s2) /\
    calls w' = (calls w ++
      [LoadCredentialsFromFile
         (dict_get connection "secret_file_path" (PyStr "")) sc;
       CredentialsRefresh cred;
       LoadCatalog "iceberg_catalog" (cat_properties (catalog writer))])%list /\
    cat_properties (catalog writer) !! "gcs.oauth2.token"
      = Some (PyCredentials tok) /\
    cat_properties (catalog writer) !! "gcs.oauth2.token-expires-at"
      = Some (PyInt (lib_timestamp s2 + 10000)).
Proof.
  intros Hsrv Hp Hsc.
  destruct (init_gcs_returns connection w Hsrv Hp Hsc)
    as (sc & cred & tok & s1 & s2 & s3 & H1 & H2 & Hinit).
  eexists _, _, sc, cred, tok, s1, s2.
  split; [exact Hinit|]. simpl. split_and!; done.
Qed.

End Construction.

(** ** Writing *)

Section Writing.
Context {S : Type} `{!External S}.

(** What a successful write in a supported mode consists of. *)
Lemma write_append_returns (self : IcebergWriter) (t : arrow_table)
      (destination : string) (w : world S) :
  catalog_operations_succeed -> rows t <> [] ->
  exists tb s1 s2,
    lib_create_table_if_not_exists (catalog self) destination (schema t) (ext w)
      = (Returned tb, s1) /\
    lib_append tb (PyTable t) s1 = (Returned tt, s2) /\
    write self (PyTable t) destination "append" w =
    (Returned tt,
     World (environ w) s2
           (calls w ++
              [CreateTableIfNotExists (catalog self) destination (schema t);
               TableAppend tb (PyTable t)])
           (stdout w ++
              ["Input data is valid for Iceberg.";
               "Data successfully written to Iceberg table '" +:+ destination
               +:+ "' in append mode."])).
Proof.
  intros (Hcreate & Happend & _) Hne.
  destruct (Hcreate (catalog self) destination (schema t) (ext w))
    as (tb & s1 & H1).
  destruct (Happend tb t s1) as ([] & s2 & H2).
  exists tb, s1, s2. split_and!; [done..|].
  unfold write. unfold bind at 1. rewrite (validate_data_valid t w Hne).
  unfold create_table_from_pyarrow, py_schema, table_append.
  unfold_monad. simpl. rewrite H1. simpl. rewrite H2.
  simpl. rewrite <- !app_assoc. reflexivity.
Qed.

(** C8: with cloud_provider s3 and services and catalog that answer,
    constructing the writer and writing a non-empty table to "ns.tbl" in
    mode "append" returns without exception; the write makes exactly two
    catalog calls, the create-if-absent of "ns.tbl" and one append, on the
    table that call returned. *)
Theorem s3_append_end_to_end (connection : gmap string pyval)
        (t : arrow_table) (w : world S) :
  services_available -> catalog_operations_succeed ->
  dict_get connection "cloud_provider" PyNone = PyStr "s3" ->
  rows t <> [] ->
  exists writer w1 tb s1 w2 (new : list call),
    IcebergWriter_init connection w = (Returned writer, w1) /\
    write writer (PyTable t) "ns.tbl" "append" w1 = (Returned tt, w2) /\
    lib_create_table_if_not_exists (catalog writer) "ns.tbl" (schema t) (ext w1)
      = (Returned tb, s1) /\
    calls w2 = calls w1 ++ new /\
    new = [CreateTableIfNotExists (catalog writer) "ns.tbl" (schema t);
           TableAppend tb (PyTable t)] /\
    length (filter (fun c => is_append c = true) new) = 1%nat /\
    filter (fun c => is_overwrite c = true) new = [].
Proof.
  intros Hsrv Hcat Hp Hne.
  destruct (init_s3_returns connection w Hsrv Hp) as [s' Hinit].
  set (writer := {| catalog := Catalog "iceberg_catalog" (s3_properties connection) |}) in *.
  set (w1 := after_call w s' _ []) in *.
  destruct (write_append_returns writer t "ns.tbl" w1 Hcat Hne)
    as (tb & s1 & s2 & H1 & H2 & Hwrite).
  eexists writer, w1, tb, s1, _, _.
  split; [exact Hinit|]. split; [exact Hwrite|]. split; [exact H1|].
  simpl. split_and!; done.
Qed.

End Writing.

(** ** The call log *)

Section Call_log.
Context {S : Type}.

Lemma only_calls_ret {A} (P : call -> Prop) (a : A) : only_calls (S:=S) P (ret a).
Proof. intros w r w' [= <- <-]. exists []. by rewrite app_nil_r. Qed.

Lemma only_calls_raise {A} (P : call -> Prop) (e : exn) :
  only_calls (S:=S) (A:=A) P (raise e).
Proof. intros w r w' [= <- <-]. exists []. by rewrite app_nil_r. Qed.

Lemma only_calls_lift {A} (P : call -> Prop) (o : outcome A) :
  only_calls (S:=S) P (lift o).
Proof. intros w r w' [= <- <-]. exists []. by rewrite app_nil_r. Qed.

Lemma only_calls_print (P : call -> Prop) (line : string) :
  only_calls (S:=S) P (print line).
Proof. intros w r w' [= <- <-]. exists []. simpl. by rewrite app_nil_r. Qed.

Lemma only_calls_os_getenv (P : call -> Prop) (key : string)
      (default : option string) :
  only_calls (S:=S) P (os_getenv key default).
Proof. intros w r w' [= <- <-]. exists []. by rewrite app_nil_r. Qed.

Lemma only_calls_now `{!External S} (P : call -> Prop) :
  only_calls (S:=S) P now_timestamp_int.
Proof. intros w r w' [= <- <-]. exists []. by rewrite app_nil_r. Qed.

Lemma only_calls_external {A} (P : call -> Prop) (c : call)
      (f : S -> outcome A * S) :
  P c -> only_calls P (external c f).
Proof.
  intros Hc w r w'. unfold external. destruct (f (ext w)) as [r' s'].
  intros [= <- <-]. exists [c]. simpl. by repeat constructor.
Qed.

Lemma only_calls_bind {A B} (P : call -> Prop) (m : M S A) (k : A -> M S B) :
  only_calls P m -> (forall a, only_calls P (k a)) -> only_calls P (bind m k).
Proof.
  intros Hm Hk w r w'. unfold bind.
  destruct (m w) as [[a|e] w1] eqn:Hmw.
  - intros Hkw. destruct (Hm _ _ _ Hmw) as (n1 & E1 & F1).
    destruct (Hk a _ _ _ Hkw) as (n2 & E2 & F2).
    exists (n1 ++ n2). rewrite E2, E1, <- app_assoc.
    split; [done | by apply Forall_app].
  - intros [= <- <-]. by eapply Hm.
Qed.

Lemma only_calls_try_except {A} (P : call -> Prop) (m : M S A)
      (h : exn -> M S A) :
  only_calls P m -> (forall e, only_calls P (h e)) ->
  only_calls P (try_except m h).
Proof.
  intros Hm Hh w r w'. unfold try_except.
  destruct (m w) as [[a|e] w1] eqn:Hmw.
  - intros [= <- <-]. by eapply Hm.
  - intros Hhw. destruct (Hm _ _ _ Hmw) as (n1 & E1 & F1).
    destruct (Hh e _ _ _ Hhw) as (n2 & E2 & F2).
    exists (n1 ++ n2). rewrite E2, E1, <- app_assoc.
    split; [done | by apply Forall_app].
Qed.

Lemma only_calls_weaken {A} (P Q : call -> Prop) (m : M S A) :
  (forall c, P c -> Q c) -> only_calls P m -> only_calls Q m.
Proof.
  intros HPQ Hm w r w' Hrun. destruct (Hm _ _ _ Hrun) as (new & E & F).
  exists new. split; [done|]. eapply Forall_impl; eauto.
Qed.

End Call_log.

Ltac only_calls_step :=
  lazymatch goal with
  | |- only_calls _ (bind _ _) => apply only_calls_bind; [|intros ?]
  | |- only_calls _ (try_except _ _) => apply only_calls_try_except; [|intros ?]
  | |- only_calls _ (ret _) => apply only_calls_ret
  | |- only_calls _ (raise _) => apply only_calls_raise
  | |- only_calls _ (lift _) => apply only_calls_lift
  | |- only_calls _ (print _) => apply only_calls_print
  | |- only_calls _ (os_getenv _ _) => apply only_calls_os_getenv
  | |- only_calls _ now_timestamp_int => apply only_calls_now
  | |- only_calls _ (external _ _) => apply only_calls_external; reflexivity
  | |- only_calls _ (if ?b then _ else _) => destruct b
  | |- only_calls _ (match ?x with _ => _ end) => destruct x
  end.

Section Call_log_of_the_program.
Context {S : Type} `{!External S}.

Lemma only_calls_get_env_var (P : call -> Prop) key default :
  only_calls (S:=S) P (get_env_var key default).
Proof. unfold get_env_var. repeat only_calls_step. Qed.

Lemma only_calls_destination_config (P : call -> Prop) :
  only_calls (S:=S) P get_iceberg_destination_config.
Proof.
  unfold get_iceberg_destination_config.
  repeat first [apply only_calls_get_env_var | only_calls_step].
Qed.

Lemma only_calls_credentials (P : call -> Prop) cloud_provider :
  only_calls (S:=S) P (get_iceberg_credentials cloud_provider).
Proof.
  unfold get_iceberg_credentials.
  repeat first [apply only_calls_get_env_var | only_calls_step].
Qed.

Lemma init_makes_no_catalog_call connection :
  only_calls not_catalog (IcebergWriter_init connection).
Proof.
  unfold IcebergWriter_init, get_access_token, load_catalog.
  repeat only_calls_step.
Qed.

Lemma init_never_appends connection :
  only_calls not_append (IcebergWriter_init connection).
Proof.
  eapply only_calls_weaken; [|apply init_makes_no_catalog_call].
  by intros [].
Qed.

Lemma overwrite_never_appends self input_data destination :
  only_calls not_append (write self input_data destination "overwrite").
Proof.
  unfold write, validate_data, create_table_from_pyarrow, py_schema,
    table_append, table_overwrite.
  rewrite bool_decide_eq_false_2 by done.
  rewrite bool_decide_eq_true_2 by done.
  repeat only_calls_step.
Qed.

Lemma iceberg_insert_never_appends resources data_dict :
  only_calls not_append (iceberg_insert resources data_dict).
Proof.
  unfold iceberg_insert.
  repeat first [ apply only_calls_destination_config
               | apply only_calls_credentials
               | apply init_never_appends
               | apply overwrite_never_appends
               | only_calls_step ].
Qed.

End Call_log_of_the_program.

(** ** The environment accessor *)

Section Environment.
Context {S : Type} `{!External S}.

Lemma get_env_var_set (key : string) (default : option string) (v : string)
      (w : world S) :
  environ w !! key = Some v -> get_env_var key default w = (Returned v, w).
Proof. intros Hv. unfold get_env_var. unfold_monad. by rewrite Hv. Qed.

Lemma get_env_var_optional (key d : string) (w : world S) :
  get_env_var key (Some d) w = (Returned (default d (environ w !! key)), w).
Proof. unfold get_env_var. unfold_monad. by destruct (environ w !! key). Qed.

(** A required variable that is unset: the ValueError names it. *)
Lemma get_env_var_unset (key : string) (w : world S) :
  environ w !! key = None ->
  get_env_var key None w =
  (Raised (Exn ValueError ("Environment variable '" +:+ key
                           +:+ "' is required but not set.")), w).
Proof. intros Hv. unfold get_env_var. unfold_monad. by rewrite Hv. Qed.

(** C9: in an environment that selects gcs, the credential accessor files
    GCS__CREDENTIALS__PROJECT_ID under "project-is"; the derived
    connection has no "project-id", so the writer configures the catalog
    with gcs.project-id equal to the empty string whatever the project
    is, and that is the catalog configuration the destination callback
    uses. *)
Theorem gcs_project_id_is_dropped (w : world S) (project : string) :
  services_available ->
  gcs_environment (environ w) project ->
  exists cfg creds writer w1,
    get_iceberg_destination_config w = (Returned cfg, w) /\
    get_iceberg_credentials (default "" (cfg !! "cloud_provider")) w
      = (Returned creds, w) /\
    creds !! "project-is" = Some project /\
    (creds ∪ cfg) !! "project-id" = None /\
    IcebergWriter_init (PyStr <$> (creds ∪ cfg)) w = (Returned writer, w1) /\
    cat_properties (catalog writer) !! "gcs.project-id" = Some (PyStr "") /\
    forall resources data_dict,
      exists before after,
        calls (iceberg_insert resources data_dict w).2 =
        calls w ++ before ++
          [LoadCatalog "iceberg_catalog" (cat_properties (catalog writer))]
          ++ after.
Proof.
  intros Hsrv (Hp & [cat Hcat] & [wh Hwh] & [ms Hms] & Hproj & [sf Hsf]).
  assert (get_iceberg_destination_config w =
          (Returned
             (<["cloud_provider" := "gcs"]>
              (<["catalog" := cat]>
               (<["warehouse_path" := wh]>
                (<["metastore_url" := ms]>
                 (<["table" := default "dlt_default_table"
                      (environ w !! "DESTINATION__ICEBERG__CONFIG__TABLE")]>
                  (<["namespace" := default "dlt_default_namespace"
                       (environ w !! "DESTINATION__ICEBERG__CONFIG__NAMESPACE")]>
                     ∅)))))), w)) as Hcfg.
  { unfold get_iceberg_destination_config.
    unfold bind at 1. rewrite (get_env_var_set _ _ _ _ Hp).
    unfold bind at 1. rewrite (get_env_var_set _ _ _ _ Hcat).
    unfold bind at 1. rewrite (get_env_var_set _ _ _ _ Hwh).
    unfold bind at 1. rewrite (get_env_var_set _ _ _ _ Hms).
    unfold bind at 1. rewrite get_env_var_optional.
    unfold bind at 1. rewrite get_env_var_optional.
    reflexivity. }
  set (cfg := <["cloud_provider" := "gcs"]> _) in Hcfg.
  assert (get_iceberg_credentials (default "" (cfg !! "cloud_provider")) w =
          (Returned (<["project-is" := project]>
                     (<["secret_file_path" := sf]> ∅)), w)) as Hcreds.
  { unfold cfg. rewrite lookup_insert_eq. simpl.
    unfold get_iceberg_credentials. rewrite bool_decide_eq_true_2 by done.
    unfold bind at 1. rewrite (get_env_var_set _ _ _ _ Hproj).
    unfold bind at 1. rewrite (get_env_var_set _ _ _ _ Hsf).
    reflexivity. }
  set (creds := <["project-is" := project]> _) in Hcreds.
  assert ((creds ∪ cfg) !! "project-id" = None) as Hnone.
  { apply lookup_union_None. unfold creds, cfg. split; by simplify_map_eq. }
  destruct (init_gcs_returns (PyStr <$> (creds ∪ cfg)) w Hsrv)
    as (sc & cred & tok & s1 & s2 & s3 & _ & _ & Hinit).
  { assert ((creds ∪ cfg) !! "cloud_provider" = Some "gcs") as E.
    { apply lookup_union_Some_raw. right. unfold creds, cfg.
      split; by simplify_map_eq. }
    unfold dict_get. by rewrite lookup_fmap, E. }
  { assert ((creds ∪ cfg) !! "scopes" = None) as E.
    { apply lookup_union_None. unfold creds, cfg.
      split; by simplify_map_eq. }
    left. unfold dict_get. by rewrite lookup_fmap, E. }
  eexists cfg, creds, _, _.
  split; [exact Hcfg|]. split; [exact Hcreds|].
  split; [by unfold creds; simplify_map_eq|].
  split; [exact Hnone|]. split; [exact Hinit|].
  split.
  { simpl. unfold gcs_properties. simplify_map_eq.
    unfold dict_get. by rewrite lookup_fmap, Hnone. }
  intros resources data_dict.
  unfold iceberg_insert.
  unfold bind at 1. rewrite Hcfg.
  unfold bind at 1. rewrite Hcreds.
  unfold bind at 1. fold creds cfg. rewrite Hinit.
  match goal with
  | |- context [calls (?m ?w1).2] =>
      assert (only_calls not_append m) as Hrest;
      [ repeat first [apply overwrite_never_appends | only_calls_step]
      | destruct (m w1) as [r w2] eqn:Hrun;
        destruct (Hrest _ _ _ Hrun) as (after & Hafter & _) ]
  end.
  simpl in *. eexists [_; _], after. rewrite Hafter.
  by rewrite <- !app_assoc.
Qed.

End Environment.

(** ** The entry point *)

Section Entry_point.
Context {S : Type} `{!External S}.

(** Every variable read through [get_env_var] and left unset is named by
    the ValueError the destination callback raises (the other required
    variables being set). *)
Lemma missing_required_variable_is_named (w : world S) (p v : string)
      (resources : arrow_table) (data_dict : gmap string string) :
  default "" (environ w !! "DESTINATION__ICEBERG__CONFIG__CLOUD_PROVIDER") = p ->
  v ∈ required_variables p ->
  environ w !! v = None ->
  (forall u, u ∈ required_variables p -> u <> v -> is_Some (environ w !! u)) ->
  iceberg_insert resources data_dict w =
  (Raised (Exn ValueError ("Environment variable '" +:+ v
                           +:+ "' is required but not set.")), w).
Proof.
  intros Hp Hv Hunset Hothers.
  assert (forall u, u ∈ required_variables p -> u <> v ->
            exists x, environ w !! u = Some x) as Hset.
  { intros u Hu Hne. by destruct (Hothers u Hu Hne) as [x ->]; eauto. }
  clear Hothers.
  assert (forall u, environ w !! u = None -> u <> v ->
            u ∈ required_variables p -> False) as Hcontra.
  { intros u Hu Hne Hin. destruct (Hset u Hin Hne) as [x Hx]. congruence. }
  unfold iceberg_insert, get_iceberg_destination_config.
  unfold required_variables in *.
  (* the four configuration variables *)
  unfold get_iceberg_credentials, get_env_var. unfold_monad.
  destruct (environ w !! "DESTINATION__ICEBERG__CONFIG__CLOUD_PROVIDER")
    as [p'|] eqn:E1; simpl in Hp; subst p.
  2: { destruct (decide (v = "DESTINATION__ICEBERG__CONFIG__CLOUD_PROVIDER"))
         as [->|Hne]; [done|].
       exfalso. eapply (Hcontra _ E1); [done | simpl; repeat constructor]. }
  destruct (environ w !! "DESTINATION__ICEBERG__CONFIG__CATALOG")
    as [cat|] eqn:E2.
  2: { destruct (decide (v = "DESTINATION__ICEBERG__CONFIG__CATALOG"))
         as [->|Hne]; [done|].
       exfalso. eapply (Hcontra _ E2); [done | simpl; repeat constructor]. }
  destruct (environ w !! "DESTINATION__ICEBERG__CONFIG__WAREHOUSE_PATH")
    as [wh|] eqn:E3.
  2: { destruct (decide (v = "DESTINATION__ICEBERG__CONFIG__WAREHOUSE_PATH"))
         as [->|Hne]; [done|].
       exfalso. eapply (Hcontra _ E3); [done | simpl; repeat constructor]. }
  destruct (environ w !! "DESTINATION__ICEBERG__CONFIG__METASTORE_URL")
    as [ms|] eqn:E4.
  2: { destruct (decide (v = "DESTINATION__ICEBERG__CONFIG__METASTORE_URL"))
         as [->|Hne]; [done|].
       exfalso. eapply (Hcontra _ E4); [done | simpl; repeat constructor]. }
  simpl.
  destruct (environ w !! "DESTINATION__ICEBERG__CONFIG__TABLE");
  destruct (environ w !! "DESTINATION__ICEBERG__CONFIG__NAMESPACE"); simpl;
    rewrite lookup_insert_eq; simpl;
    repeat case_bool_decide; subst; simpl;
    repeat
      (match goal with
       | |- context [environ w !! ?k] =>
           let E := fresh "E" in
           destruct (environ w !! k) eqn:E; simpl;
           [| destruct (decide (v = k)) as [->|?];
              [ | exfalso; eapply (Hcontra _ E); [done | simpl; repeat constructor]] ]
       end).
  all: try done.
  all: exfalso; simpl in Hv;
    repeat (apply elem_of_cons in Hv as [Heq | Hv];
            [first [discriminate Heq | subst; congruence]|]);
    by apply elem_of_nil in Hv.
Qed.

(** C3: with SOURCES__MONGODB__COLLECTION_NAMES unset, the entry point
    does not raise a configuration error naming the variable: calling
    split on the None that os.getenv returned raises an AttributeError,
    whose message does not mention the variable. *)
Theorem collection_names_unset_is_not_named (w : world S) :
  environ w !! "SOURCES__MONGODB__COLLECTION_NAMES" = None ->
  exists e,
    load_select_collection_db None w = (Raised e, w) /\
    exn_cls e = AttributeError /\
    exn_msg e = "'NoneType' object has no attribute 'split'" /\
    mentions "SOURCES__MONGODB__COLLECTION_NAMES" (exn_msg e) = false.
Proof.
  intros Hunset. exists (no_attribute "NoneType" "split").
  split; [|by vm_compute].
  unfold load_select_collection_db. unfold_monad. by rewrite Hunset.
Qed.

End Entry_point.

(** ** The destination callback *)

Section Inversion.
Context {S : Type} `{!External S}.

Lemma bind_returned {A B} (m : M S A) (k : A -> M S B) (w w' : world S) (b : B) :
  bind m k w = (Returned b, w') ->
  exists a w1, m w = (Returned a, w1) /\ k a w1 = (Returned b, w').
Proof.
  unfold bind. destruct (m w) as [[a|e] w1]; [eauto | discriminate].
Qed.

Lemma get_env_var_returned key default v (w w' : world S) :
  get_env_var key default w = (Returned v, w') ->
  w' = w /\ (environ w !! key = Some v \/
             (environ w !! key = None /\ default = Some v)).
Proof.
  unfold get_env_var. unfold_monad.
  destruct (environ w !! key); [|destruct default]; intros [= <- <-]; eauto.
Qed.

(** The configuration, once read, holds the table and the namespace of
    the environment, or their defaults. *)
Lemma destination_config_returned cfg (w w' : world S) :
  get_iceberg_destination_config w = (Returned cfg, w') ->
  w' = w /\
  cfg !! "table" = Some (default "dlt_default_table"
                           (environ w !! "DESTINATION__ICEBERG__CONFIG__TABLE")) /\
  cfg !! "namespace" = Some (default "dlt_default_namespace"
                           (environ w !! "DESTINATION__ICEBERG__CONFIG__NAMESPACE")).
Proof.
  unfold get_iceberg_destination_config. intros Hrun.
  repeat (apply bind_returned in Hrun as (? & ? & [-> ?]%get_env_var_returned & Hrun)).
  unfold ret in Hrun. injection Hrun as <- <-. split; [done|].
  repeat match goal with
         | H : _ \/ _ |- _ => destruct H as [H | [H ?]]
         end; simplify_eq;
  repeat match goal with
         | H : environ w !! _ = _ |- _ => rewrite H; clear H
         end; by simplify_map_eq.
Qed.

(** The credentials never carry a table or a namespace. *)
Lemma credentials_returned p creds (w w' : world S) :
  get_iceberg_credentials p w = (Returned creds, w') ->
  w' = w /\ creds !! "table" = None /\ creds !! "namespace" = None.
Proof.
  unfold get_iceberg_credentials. intros Hrun.
  repeat case_bool_decide;
    repeat (apply bind_returned in Hrun as (? & ? & [-> _]%get_env_var_returned & Hrun));
    injection Hrun as <- <-; by simplify_map_eq.
Qed.

(** A write in mode "overwrite" that returns made exactly the
    create-if-absent call and one overwrite. *)
Lemma write_overwrite_returned self v destination (w w' : world S) :
  write self v destination "overwrite" w = (Returned tt, w') ->
  exists t tb s1 s2,
    v = PyTable t /\ rows t <> [] /\
    lib_create_table_if_not_exists (catalog self) destination (schema t) (ext w)
      = (Returned tb, s1) /\
    lib_overwrite tb v s1 = (Returned tt, s2) /\
    ext w' = s2 /\
    calls w' = calls w ++
               [CreateTableIfNotExists (catalog self) destination (schema t);
                TableOverwrite tb v].
Proof.
  unfold write, validate_data, create_table_from_pyarrow, py_schema,
    table_append, table_overwrite.
  rewrite bool_decide_eq_false_2 by done.
  rewrite bool_decide_eq_true_2 by done.
  destruct v as [| | | | |t]; unfold_monad; try discriminate.
  destruct (rows t) as [|row rest] eqn:Hrows; simpl; [discriminate|].
  destruct (lib_create_table_if_not_exists _ _ _ _) as [[tb|e] s1] eqn:H1;
    simpl; [|discriminate].
  destruct (lib_overwrite _ _ _) as [[[]|e] s2] eqn:H2; simpl; [|discriminate].
  intros [= <-]. exists t, tb, s1, s2. simpl.
  rewrite Hrows, <- app_assoc. by split_and!.
Qed.

End Inversion.

Section Callback.
Context {S : Type} `{!External S}.

(** What a run of the destination callback that returns consists of. *)
Lemma iceberg_insert_returned resources data_dict (w w' : world S) :
  iceberg_insert resources data_dict w = (Returned tt, w') ->
  let data := PyTable (ArrowTable (schema resources) (rows resources)) in
  let destination := destination_of (environ w) data_dict in
  exists connection writer w1 tb s1,
    IcebergWriter_init connection w = (Returned writer, w1) /\
    rows resources <> [] /\
    lib_create_table_if_not_exists (catalog writer) destination
      (schema resources) (ext w1) = (Returned tb, s1) /\
    lib_overwrite tb data s1 = (Returned tt, ext w') /\
    calls w' = calls w1 ++
               [CreateTableIfNotExists (catalog writer) destination
                                       (schema resources);
                TableOverwrite tb data].
Proof.
  intros Hrun data destination. unfold iceberg_insert in Hrun.
  apply bind_returned in Hrun
    as (cfg & ? & (-> & Htable & Hns)%destination_config_returned & Hrun).
  apply bind_returned in Hrun
    as (creds & ? & (-> & Hctable & Hcns)%credentials_returned & Hrun).
  apply bind_returned in Hrun as (writer & w1 & Hinit & Hrun).
  apply bind_returned in Hrun as (pa & ? & Hpa & Hrun).
  apply bind_returned in Hrun as ([] & w2 & Hwrite & Hrun).
  unfold lift, from_batches in Hpa. simpl in Hpa. rewrite app_nil_r in Hpa.
  injection Hpa as <- <-.
  unfold print in Hrun. injection Hrun as <-.
  apply write_overwrite_returned in Hwrite
    as (t & tb & s1 & s2 & [= <-] & Hne & H1 & H2 & Hext & Hcalls).
  simpl in *.
  rewrite !(lookup_union_r creds cfg) in H1, Hcalls by done.
  rewrite Htable, Hns in H1, Hcalls. simpl in H1, Hcalls.
  assert (forall x : string,
    bool_decide (Some x <> Some "dlt_default_table")
    = bool_decide (x <> "dlt_default_table")) as Hdec.
  { intros x. apply bool_decide_ext. split; intros Hx; congruence. }
  rewrite Hdec in H1, Hcalls.
  exists (PyStr <$> (creds ∪ cfg)), writer, w1, tb, s1.
  subst s2. by split_and!.
Qed.

End Callback.

(** ** The in-memory services *)

Lemma mem_services_available : services_available (S:=Mem.mem).
Proof. split_and!; intros; intros s; simpl; eauto. Qed.

Lemma mem_catalog_operations_succeed : catalog_operations_succeed (S:=Mem.mem).
Proof.
  split_and!; intros; intros s; simpl; eauto.
  unfold Mem.create_table_if_not_exists. case_match; eauto.
Qed.

(** Constructing the writer leaves the stored tables alone. *)
Lemma mem_init_keeps_store connection (w : world Mem.mem) r w' :
  IcebergWriter_init connection w = (r, w') ->
  Mem.tables (ext w') = Mem.tables (ext w).
Proof.
  unfold IcebergWriter_init, get_access_token, load_catalog.
  unfold_monad. simpl.
  unfold Mem.load_credentials, Mem.refresh, Mem.open_catalog.
  repeat case_match; simplify_eq; intros; simplify_eq; done.
Qed.

(** C10: the destination callback never appends: whatever the services
    do, no call it makes is an append, and a run that returns made, after
    constructing the writer, exactly the create-if-absent call and one
    overwrite of the destination with the batch.  With the in-memory
    catalog, after a run that returns the destination table holds the rows
    of that batch alone, whatever earlier batches had left in it, and the
    other tables are untouched. *)
Theorem destination_callback_always_overwrites :
  (forall (S : Type) (E : External S) resources data_dict (w : world S),
      let run := iceberg_insert resources data_dict w in
      let data := PyTable (ArrowTable (schema resources) (rows resources)) in
      let destination := destination_of (environ w) data_dict in
      (exists new, calls run.2 = calls w ++ new /\ Forall not_append new) /\
      (run.1 = Returned tt ->
       exists before cat tb,
         Forall not_catalog before /\
         calls run.2 = calls w ++ before ++
           [CreateTableIfNotExists cat destination (schema resources);
            TableOverwrite tb data])) /\
  (forall resources data_dict (w w' : world Mem.mem),
      iceberg_insert resources data_dict w = (Returned tt, w') ->
      let destination := destination_of (environ w) data_dict in
      Mem.tables (ext w') !! destination
        = Some (ArrowTable (schema resources) (rows resources)) /\
      forall other, other <> destination ->
        Mem.tables (ext w') !! other = Mem.tables (ext w) !! other).
Proof.
  split.
  - intros S E resources data_dict w run data destination.
    destruct run as [r w'] eqn:Hrun. subst run. simpl. split.
    + by eapply iceberg_insert_never_appends.
    + intros ->.
      destruct (iceberg_insert_returned _ _ _ _ Hrun)
        as (connection & writer & w1 & tb & s1 & Hinit & _ & _ & _ & Hcalls).
      destruct (init_makes_no_catalog_call _ _ _ _ Hinit) as (before & E1 & F1).
      exists before, (catalog writer), tb. split; [done|].
      by rewrite Hcalls, E1, <- app_assoc.
  - intros resources data_dict w w' Hrun destination.
    destruct (iceberg_insert_returned _ _ _ _ Hrun)
      as (connection & writer & w1 & tb & s1 & Hinit & _ & H1 & H2 & _).
    apply mem_init_keeps_store in Hinit.
    simpl in H1, H2. unfold Mem.overwrite in H2. injection H2 as H2.
    rewrite <- H2. simpl.
    unfold Mem.create_table_if_not_exists in H1.
    fold destination in H1.
    destruct (Mem.tables (ext w1) !! destination) eqn:Hold;
      injection H1 as <- <-; simpl; rewrite <- Hinit.
    + split; [by rewrite lookup_insert_eq|].
      intros other Hne. by rewrite lookup_insert_ne.
    + split; [by rewrite lookup_insert_eq|].
      intros other Hne. by rewrite !lookup_insert_ne.
Qed.

(** ** The theorems at sample inputs *)

Import Sample.

Lemma create_failure_is_swallowed_witness :
  lib_create_table_if_not_exists (catalog a_writer) "ns.tbl"
    (schema users_batch) (ext start_down) = (Raised Down.unreachable, tt) /\
  rows users_batch <> [] /\
  create_table_from_pyarrow a_writer (PyTable users_batch) "ns.tbl" start_down
    = (Returned None,
       World ∅ tt
             [CreateTableIfNotExists (catalog a_writer) "ns.tbl" (schema users_batch)]
             ["Exception while creating table 'ns.tbl'."]) /\
  (write a_writer (PyTable users_batch) "ns.tbl" "append" start_down).1
    = Raised (Exn AttributeError "'NoneType' object has no attribute 'append'") /\
  (write a_writer (PyTable users_batch) "ns.tbl" "overwrite" start_down).1
    = Raised (Exn AttributeError "'NoneType' object has no attribute 'overwrite'").
Proof.
  assert (lib_create_table_if_not_exists (catalog a_writer) "ns.tbl"
            (schema users_batch) (ext start_down) = (Raised Down.unreachable, tt))
    as Hfail by reflexivity.
  assert (rows users_batch <> []) as Hne by discriminate.
  destruct (create_failure_is_swallowed a_writer users_batch "ns.tbl"
              Down.unreachable start_down tt Hfail) as [Hcreate Hwrite].
  destruct (Hwrite Hne) as [Happend Hoverwrite].
  split; [exact Hfail|]. split; [exact Hne|]. split; [exact Hcreate|].
  split; [by rewrite Happend | by rewrite Hoverwrite].
Defined.

Lemma init_builds_exactly_provider_keys_witness :
  dict_get gcs_connection "cloud_provider" PyNone = PyStr "gcs" /\
  exists writer w',
    IcebergWriter_init gcs_connection (start ∅) = (Returned writer, w') /\
    dom (cat_properties (catalog writer)) =
    {[ "py-io-impl"; "uri"; "gcs.project-id"; "gcs.default-bucket-location";
       "gcs.oauth2.token-expires-at"; "gcs.oauth2.token" ]} /\
    cat_properties (catalog writer) !! "s3.region" = None.
Proof.
  assert (dict_get gcs_connection "cloud_provider" PyNone = PyStr "gcs")
    as Hp by reflexivity.
  assert (scopes_usable (dict_get gcs_connection "scopes" PyNone))
    as Hsc by (left; reflexivity).
  split; [exact Hp|].
  destruct (init_builds_exactly_provider_keys gcs_connection "gcs" (start ∅)
              mem_services_available Hp (or_intror (or_intror eq_refl)) Hsc)
    as (writer & w' & before & Hinit & _ & _ & Hdom & Hother).
  exists writer, w'. split; [exact Hinit|]. split; [exact Hdom|].
  apply (Hother "s3" "s3.region"); vm_compute; set_solver.
Defined.

Lemma collection_names_unset_is_not_named_witness :
  environ (start gcs_environ) !! "SOURCES__MONGODB__COLLECTION_NAMES" = None /\
  exists e,
    load_select_collection_db None (start gcs_environ) = (Raised e, start gcs_environ) /\
    exn_cls e = AttributeError /\
    exn_msg e = "'NoneType' object has no attribute 'split'" /\
    mentions "SOURCES__MONGODB__COLLECTION_NAMES" (exn_msg e) = false.
Proof.
  assert (environ (start gcs_environ) !! "SOURCES__MONGODB__COLLECTION_NAMES"
          = None) as Hunset by reflexivity.
  split; [exact Hunset|].
  exact (collection_names_unset_is_not_named (start gcs_environ) Hunset).
Defined.

Lemma write_invalid_input_raises_witness :
  invalid_input (PyTable empty_batch) /\
  invalid_input (PyStr "not a table") /\
  (exists msg,
      write a_writer (PyTable empty_batch) "ns.tbl" "append" (start ∅)
      = (Raised (Exn ValueError msg), start ∅)) /\
  (exists msg,
      write a_writer (PyStr "not a table") "ns.tbl" "append" (start ∅)
      = (Raised (Exn ValueError msg), start ∅)).
Proof.
  assert (invalid_input (PyTable empty_batch)) as Hempty
    by (apply invalid_empty; reflexivity).
  assert (invalid_input (PyStr "not a table")) as Hother
    by (apply invalid_not_table; discriminate).
  split; [exact Hempty|]. split; [exact Hother|]. split.
  - exact (write_invalid_input_raises a_writer _ "ns.tbl" "append" (start ∅) Hempty).
  - exact (write_invalid_input_raises a_writer _ "ns.tbl" "append" (start ∅) Hother).
Defined.

Lemma write_unsupported_mode_raises_witness :
  rows users_batch <> [] /\ "upsert" <> "append" /\ "upsert" <> "overwrite" /\
  exists w',
    write a_writer (PyTable users_batch) "ns.tbl" "upsert" (start ∅)
    = (Raised (Exn ValueError "Unsupported write mode: upsert"), w').
Proof.
  assert (rows users_batch <> []) as Hne by discriminate.
  assert ("upsert" <> "append") as Happ by discriminate.
  assert ("upsert" <> "overwrite") as Hov by discriminate.
  split; [exact Hne|]. split; [exact Happ|]. split; [exact Hov|].
  exact (write_unsupported_mode_raises a_writer users_batch "ns.tbl" "upsert"
           (start ∅) Hne Happ Hov).
Defined.

Lemma unsupported_provider_raises_witness :
  ~ supported_provider (dict_get azure_gov_connection "cloud_provider" PyNone) /\
  ~ supported_provider (dict_get ∅ "cloud_provider" PyNone) /\
  (exists msg, create_writer azure_gov_connection (start ∅)
               = (Raised (Exn ValueError msg), start ∅)) /\
  (exists msg, IcebergWriter_init azure_gov_connection (start ∅)
               = (Raised (Exn ValueError msg), start ∅)) /\
  (exists msg, IcebergWriter_init ∅ (start ∅)
               = (Raised (Exn ValueError msg), start ∅)).
Proof.
  assert (~ supported_provider
            (dict_get azure_gov_connection "cloud_provider" PyNone)) as Hazure
    by (intros [H | [H | H]]; discriminate H).
  assert (~ supported_provider (dict_get ∅ "cloud_provider" PyNone)) as Hmissing
    by (intros [H | [H | H]]; discriminate H).
  destruct (unsupported_provider_raises azure_gov_connection (start ∅) Hazure)
    as [Hfactory Hinit].
  destruct (unsupported_provider_raises ∅ (start ∅) Hmissing) as [_ Hinit'].
  split; [exact Hazure|]. split; [exact Hmissing|].
  split; [exact Hfactory|]. split; [exact Hinit | exact Hinit'].
Defined.

Lemma init_gcs_token_and_expiry_witness :
  dict_get gcs_connection "cloud_provider" PyNone = PyStr "gcs" /\
  exists writer w',
    IcebergWriter_init gcs_connection (start ∅) = (Returned writer, w') /\
    cat_properties (catalog writer) !! "gcs.oauth2.token-expires-at"
      = Some (PyInt 1700010001) /\
    cat_properties (catalog writer) !! "gcs.oauth2.token"
      = Some (PyCredentials (Credentials "/etc/gcs/key.json" (Some "ya29.token"))) /\
    calls w' =
      [LoadCredentialsFromFile (PyStr "/etc/gcs/key.json") default_scopes;
       CredentialsRefresh (Credentials "/etc/gcs/key.json" None);
       LoadCatalog "iceberg_catalog" (cat_properties (catalog writer))].
Proof.
  assert (dict_get gcs_connection "cloud_provider" PyNone = PyStr "gcs")
    as Hp by reflexivity.
  assert (scopes_usable (dict_get gcs_connection "scopes" PyNone))
    as Hsc by (left; reflexivity).
  split; [exact Hp|].
  destruct (init_gcs_token_and_expiry gcs_connection (start ∅)
              mem_services_available Hp Hsc)
    as (writer & w' & sc & cred & tok & s1 & s2
        & Hinit & Hload & Hrefresh & Hcalls & Htoken & Hexpiry).
  exists writer, w'. split; [exact Hinit|].
  vm_compute in Hinit. injection Hinit as <- <-.
  split; [reflexivity|]. split; reflexivity.
Defined.

Lemma s3_append_end_to_end_witness :
  dict_get s3_connection "cloud_provider" PyNone = PyStr "s3" /\
  rows users_batch <> [] /\
  exists writer w1 w2,
    IcebergWriter_init s3_connection (start ∅) = (Returned writer, w1) /\
    write writer (PyTable users_batch) "ns.tbl" "append" w1 = (Returned tt, w2) /\
    calls w2 = calls w1 ++
      [CreateTableIfNotExists (catalog writer) "ns.tbl" (schema users_batch);
       TableAppend (IcebergTable "ns.tbl") (PyTable users_batch)] /\
    Mem.tables (ext w2) !! "ns.tbl" = Some users_batch.
Proof.
  assert (dict_get s3_connection "cloud_provider" PyNone = PyStr "s3")
    as Hp by reflexivity.
  assert (rows users_batch <> []) as Hne by discriminate.
  split; [exact Hp|]. split; [exact Hne|].
  destruct (s3_append_end_to_end s3_connection users_batch (start ∅)
              mem_services_available mem_catalog_operations_succeed Hp Hne)
    as (writer & w1 & tb & s1 & w2 & new
        & Hinit & Hwrite & Hcreate & Hcalls & Hnew & _ & _).
  exists writer, w1, w2. split; [exact Hinit|]. split; [exact Hwrite|].
  vm_compute in Hinit. injection Hinit as <- <-.
  vm_compute in Hwrite. injection Hwrite as <-.
  split; reflexivity.
Defined.

Lemma gcs_project_id_is_dropped_witness :
  gcs_environment gcs_environ "analytics-prod" /\
  exists writer w1,
    IcebergWriter_init
      (PyStr <$> (<["project-is" := "analytics-prod"]>
                  (<["secret_file_path" := "/etc/gcs/key.json"]> ∅)
                  ∪ (<["cloud_provider" := "gcs"]>
                     (<["catalog" := "lake"]>
                      (<["warehouse_path" := "gs://lake/warehouse"]>
                       (<["metastore_url" := "http://metastore:8181"]>
                        (<["table" := "dlt_default_table"]>
                         (<["namespace" := "dlt_default_namespace"]> ∅))))))))
      (start gcs_environ) = (Returned writer, w1) /\
    cat_properties (catalog writer) !! "gcs.project-id" = Some (PyStr "").
Proof.
  assert (gcs_environment gcs_environ "analytics-prod") as Henv
    by (unfold gcs_environment; split_and!; try reflexivity; by eexists).
  split; [exact Henv|].
  destruct (gcs_project_id_is_dropped (start gcs_environ) "analytics-prod"
              mem_services_available Henv)
    as (cfg & creds & writer & w1 & Hcfg & Hcreds & _ & _ & Hinit & Hid & _).
  vm_compute in Hcfg. injection Hcfg as <-.
  vm_compute in Hcreds. injection Hcreds as <-.
  exists writer, w1. split; [exact Hinit | exact Hid].
Defined.

Lemma destination_callback_always_overwrites_witness :
  exists w',
    iceberg_insert orders_batch {[ "name" := "orders" ]}
                   (start_after_users s3_environ) = (Returned tt, w') /\
    Mem.tables (ext (start_after_users s3_environ)) !! "ns.events"
      = Some users_batch /\
    Mem.tables (ext w') !! "ns.events" = Some orders_batch.
Proof.
  destruct (iceberg_insert orders_batch {[ "name" := "orders" ]}
                           (start_after_users s3_environ)) as [r w'] eqn:Hrun.
  assert (r = Returned tt) as -> by (vm_compute in Hrun; congruence).
  exists w'. split; [reflexivity|]. split; [reflexivity|].
  exact (proj1 (proj2 destination_callback_always_overwrites
                      orders_batch {[ "name" := "orders" ]}
                      (start_after_users s3_environ) w' Hrun)).
Defined.

(** Two batches delivered in a row to the configured table "ns.events":
    the table ends up holding the second batch only. *)
Example two_batches_leave_the_last :
  exists w',
    load_select_collection_db None (start_with_source s3_environ)
      = (Returned ["users"; "orders"], w') /\
    filter (fun c => is_append c = true) (calls w') = [] /\
    length (filter (fun c => is_overwrite c = true) (calls w')) = 2%nat /\
    Mem.tables (ext w') !! "ns.events" = Some orders_batch.
Proof.
  destruct (load_select_collection_db None (start_with_source s3_environ))
    as [r w'] eqn:Hrun.
  vm_compute in Hrun. injection Hrun as <- <-.
  eexists. split; [reflexivity|]. split; [reflexivity|]. split; reflexivity.
Qed.

(** * Further properties of the code *)

(** ** Splitting the collection names *)

Lemma split_not_nil (sep : Ascii.ascii) (s : string) : split sep s <> [].
Proof. destruct s; simpl; [done|]. case_bool_decide; [done|]. by case_match. Qed.

Lemma join_cons_char (sep : string) (c : Ascii.ascii) (h : string)
      (t : list string) :
  join sep (String c h :: t) = String c (join sep (h :: t)).
Proof. by destruct t. Qed.

(** X1: joining the pieces of [s.split(",")] with the separator gives [s]
    back: splitting loses nothing and trims nothing (blanks and empty names
    are kept). *)
Theorem split_join_round_trip (sep : Ascii.ascii) (s : string) :
  join (String sep EmptyString) (split sep s) = s.
Proof.
  induction s as [|c r IH]; simpl; [done|].
  case_bool_decide as Hc.
  - subst c. pose proof (split_not_nil sep r) as Hne.
    destruct (split sep r) as [|h t] eqn:Hsplit; [done|].
    simpl in *. by rewrite IH.
  - pose proof (split_not_nil sep r) as Hne.
    destruct (split sep r) as [|h t] eqn:Hsplit; [done|].
    rewrite join_cons_char. by rewrite IH.
Qed.

(** X2: [s.split(",")] yields one piece more than [s] has separators, so at
    least one piece, also for the empty string, and no piece contains the
    separator. *)
Theorem split_pieces (sep : Ascii.ascii) (s : string) :
  length (split sep s) = Datatypes.S (occurrences sep s) /\
  Forall (fun piece => occurrences sep piece = 0%nat) (split sep s).
Proof.
  induction s as [|c r [IHlen IHall]]; simpl.
  - split; [done|]. by repeat constructor.
  - case_bool_decide as Hc.
    + split; [simpl; by rewrite IHlen|]. by constructor.
    + pose proof (split_not_nil sep r) as Hne.
      destruct (split sep r) as [|h t] eqn:Hsplit; [done|].
      simpl in *. split; [done|].
      inversion IHall as [|? ? Hh Ht]; subst. constructor; [|done].
      simpl. by rewrite bool_decide_eq_false_2.
Qed.

(** ** Table creation *)

Section Table_creation.
Context {S : Type} `{!External S}.

(** X3: [create_table_from_pyarrow] never raises, whatever it is given and
    whatever the catalog does.  It makes at most one call, the
    create-if-absent of the destination; it returns None exactly when it
    printed its complaint; and on a value that is no columnar table it
    returns None without reaching the catalog at all. *)
Theorem create_table_from_pyarrow_never_raises (self : IcebergWriter)
        (v : pyval) (destination : string) (w : world S) :
  exists r w',
    create_table_from_pyarrow self v destination w = (Returned r, w') /\
    (calls w' = calls w \/
     exists sch, calls w' =
       calls w ++ [CreateTableIfNotExists (catalog self) destination sch]) /\
    (r = None <->
     stdout w' = stdout w ++
       ["Exception while creating table '" +:+ destination +:+ "'."]) /\
    (is_Some r <-> stdout w' = stdout w) /\
    ((forall t, v <> PyTable t) ->
     r = None /\ calls w' = calls w /\ ext w' = ext w).
Proof.
  assert (forall (l : list string) (x : string), l ++ [x] <> l) as Hneq.
  { intros l x Heq. apply (f_equal length) in Heq.
    rewrite length_app in Heq. simpl in Heq. lia. }
  unfold create_table_from_pyarrow, py_schema. unfold_monad.
  destruct v as [| | | | |t]; simpl;
    [| | | | | destruct (lib_create_table_if_not_exists _ _ _ _)
                 as [[tb|e] s'] eqn:Hc; simpl];
    eexists _, _; (split; [reflexivity|]); simpl;
    (split; [first [by left | right; by eexists]|]);
    (split; [split; intros Hx; first [done | by apply Hneq in Hx
                                     | symmetry in Hx; by apply Hneq in Hx]|]);
    (split; [split; intros Hx; first [done | by eexists | by apply is_Some_None in Hx
                                     | by apply Hneq in Hx]|]);
    intros Hnot; first [done | by destruct (Hnot t)].
Qed.

End Table_creation.

(** ** Token acquisition *)

Section Token.
Context {S : Type} `{!External S}.

Lemma scopes_step (scopes : pyval) (w : world S) :
  scopes_usable scopes ->
  (match scopes with
   | PyNone => ret default_scopes
   | _ => let! n := lift (py_len scopes) in
          if (n <? 1)%nat then ret default_scopes else ret scopes
   end) w = (Returned (effective_scopes scopes), w).
Proof.
  intros [-> | [n Hn]]; [done|].
  destruct scopes as [|s| |l| |t]; simpl in Hn; try done; unfold_monad; simpl.
  - by destruct s.
  - by destruct l.
  - by destruct (rows t).
Qed.

(** X4: [get_access_token] asks google.auth for the cloud-platform scope
    when the scopes are None or empty, and for the given scopes otherwise;
    the credentials file is the path it was given.  This is the first
    external call, whatever google.auth then answers. *)
Theorem get_access_token_requests_effective_scopes (path scopes : pyval)
        (w : world S) :
  scopes_usable scopes ->
  exists rest,
    calls (get_access_token path scopes w).2 =
    calls w ++ LoadCredentialsFromFile path (effective_scopes scopes) :: rest.
Proof.
  intros Hsc. unfold get_access_token. unfold bind at 1.
  rewrite (scopes_step scopes w Hsc). unfold_monad.
  destruct (lib_load_credentials_from_file _ _ _) as [[cred|e] s1]; simpl.
  - destruct (lib_refresh _ _) as [[tok|e] s2]; simpl;
      exists [CredentialsRefresh cred]; by rewrite <- app_assoc.
  - by exists [].
Qed.

(** X5: for gcs, scopes that have no length (an integer, say) make the
    constructor raise a TypeError before any external call: no credentials
    are loaded and no catalog client is built. *)
Theorem init_gcs_unsized_scopes_raise (connection : gmap string pyval)
        (w : world S) :
  dict_get connection "cloud_provider" PyNone = PyStr "gcs" ->
  ~ scopes_usable (dict_get connection "scopes" PyNone) ->
  exists msg,
    IcebergWriter_init connection w = (Raised (Exn TypeError msg), w).
Proof.
  intros Hp Hsc. unfold IcebergWriter_init. rewrite Hp. simpl.
  unfold get_access_token. unfold scopes_usable in Hsc.
  destruct (dict_get connection "scopes" PyNone) as [|s|n|l|c|t];
    try (exfalso; apply Hsc; by eauto);
    unfold_monad; simpl; eauto.
Qed.

End Token.

(** ** Construction, continued *)

Section Construction_more.
Context {S : Type} `{!External S}.

(** X6: for s3 and abfss the constructor makes exactly one external call,
    load_catalog with that provider's properties, and nothing else (no
    credential is loaded); it returns the client when the call returns and
    raises the call's exception unchanged when it raises. *)
Theorem init_s3_abfss_single_call (connection : gmap string pyval)
        (w : world S) :
  let provider := dict_get connection "cloud_provider" PyNone in
  provider = PyStr "s3" \/ provider = PyStr "abfss" ->
  let properties :=
    if py_eq_str provider "s3" then s3_properties connection
    else abfss_properties connection in
  exists r s',
    lib_load_catalog "iceberg_catalog" properties (ext w) = (r, s') /\
    IcebergWriter_init connection w =
    (match r with
     | Returned _ => Returned {| catalog := Catalog "iceberg_catalog" properties |}
     | Raised e => Raised e
     end,
     World (environ w) s'
           (calls w ++ [LoadCatalog "iceberg_catalog" properties]) (stdout w)).
Proof.
  intros provider Hp properties. subst provider properties.
  unfold IcebergWriter_init, load_catalog. unfold_monad.
  destruct Hp as [-> | ->]; simpl;
    destruct (lib_load_catalog _ _ _) as [[[]|e] s'] eqn:Hc;
    eexists _, s'; (split; [reflexivity|]); simpl; by rewrite ?app_nil_r.
Qed.

(** X7: for gcs, when loading the credentials raises, or refreshing them
    does, the constructor raises that same exception and stops there: no
    catalog client is requested. *)
Theorem init_gcs_token_failure_propagates (connection : gmap string pyval)
        (w : world S) (e : exn) :
  dict_get connection "cloud_provider" PyNone = PyStr "gcs" ->
  scopes_usable (dict_get connection "scopes" PyNone) ->
  let path := dict_get connection "secret_file_path" (PyStr "") in
  let sc := effective_scopes (dict_get connection "scopes" PyNone) in
  (forall s1,
      lib_load_credentials_from_file path sc (ext w) = (Raised e, s1) ->
      IcebergWriter_init connection w =
      (Raised e,
       World (environ w) s1
             (calls w ++ [LoadCredentialsFromFile path sc]) (stdout w))) /\
  (forall cred s1 s2,
      lib_load_credentials_from_file path sc (ext w) = (Returned cred, s1) ->
      lib_refresh cred s1 = (Raised e, s2) ->
      IcebergWriter_init connection w =
      (Raised e,
       World (environ w) s2
             (calls w ++ [LoadCredentialsFromFile path sc; CredentialsRefresh cred])
             (stdout w))).
Proof.
  intros Hp Hsc path sc.
  split; [intros s1 H1 | intros cred s1 s2 H1 H2];
    unfold IcebergWriter_init; rewrite Hp; simpl;
    unfold get_access_token; unfold bind at 1; unfold bind at 1;
    rewrite (scopes_step _ w Hsc); unfold_monad;
    fold path sc; rewrite H1; simpl; [done|].
  rewrite H2. by rewrite <- app_assoc.
Qed.

Lemma dict_get_insert_ne (connection : gmap string pyval) (k k' : string)
      (v d : pyval) :
  k <> k' -> dict_get (<[k := v]> connection) k' d = dict_get connection k' d.
Proof. intros Hne. unfold dict_get. by rewrite lookup_insert_ne. Qed.

(** X8: the constructor looks at no connection key outside those of the
    selected provider: adding or changing any other entry changes neither
    its result nor its calls.  So for s3 and abfss the warehouse path plays
    no part, nor does the catalog name, the table or the namespace for any
    provider, nor the Azure endpoint suffix. *)
Theorem init_ignores_other_keys (connection : gmap string pyval)
        (k : string) (v : pyval) (w : world S) :
  k ∉ keys_used (dict_get connection "cloud_provider" PyNone) ->
  IcebergWriter_init (<[k := v]> connection) w = IcebergWriter_init connection w.
Proof.
  intros Hk.
  assert (forall k' d, k' ∈ keys_used (dict_get connection "cloud_provider" PyNone) ->
            dict_get (<[k := v]> connection) k' d = dict_get connection k' d)
    as Hget.
  { intros k' d Hk'. apply dict_get_insert_ne. intros ->. done. }
  unfold IcebergWriter_init, s3_properties, abfss_properties, gcs_properties.
  unfold keys_used in *.
  rewrite (Hget "cloud_provider") by (repeat case_match; set_solver).
  destruct (py_eq_str _ "s3"); [by rewrite !Hget by set_solver|].
  destruct (py_eq_str _ "abfss"); [by rewrite !Hget by set_solver|].
  destruct (py_eq_str _ "gcs"); [by rewrite !Hget by set_solver|].
  done.
Qed.

(** X9: [Writer.create_writer] adds nothing to the constructor: on a
    supported provider it is the constructor, and otherwise both raise a
    ValueError before any call, each with its own message; the
    constructor's message lists 'gcp', a value it rejects. *)
Theorem create_writer_is_the_constructor (connection : gmap string pyval)
        (w : world S) :
  (supported_provider (dict_get connection "cloud_provider" PyNone) ->
   create_writer connection w = IcebergWriter_init connection w) /\
  (~ supported_provider (dict_get connection "cloud_provider" PyNone) ->
   create_writer connection w =
   (Raised (Exn ValueError
      "Unsupported cloud provider. Supported providers are 's3', 'abfss' and 'gcs'."),
    w) /\
   IcebergWriter_init connection w =
   (Raised (Exn ValueError
      "Unsupported cloud provider. Supported providers are 's3', 'abfss', and 'gcp'."),
    w)).
Proof.
  unfold supported_provider, create_writer, IcebergWriter_init. split.
  - intros [-> | [-> | ->]]; reflexivity.
  - intros Hun. rewrite !py_eq_str_false by tauto. done.
Qed.

End Construction_more.

(** ** Writing, continued *)

Section Writing_more.
Context {S : Type} `{!External S}.

(** X10: when the catalog created the table and the append (or the
    overwrite) then raises, [write] raises that same exception; the table
    creation is not undone and the success line is not printed. *)
Theorem write_operation_failure_propagates (self : IcebergWriter)
        (t : arrow_table) (destination : string) (w : world S)
        (tb : iceberg_table) (s1 s2 : S) (e : exn) :
  rows t <> [] ->
  lib_create_table_if_not_exists (catalog self) destination (schema t) (ext w)
    = (Returned tb, s1) ->
  (lib_append tb (PyTable t) s1 = (Raised e, s2) ->
   write self (PyTable t) destination "append" w =
   (Raised e,
    World (environ w) s2
          (calls w ++ [CreateTableIfNotExists (catalog self) destination (schema t);
                       TableAppend tb (PyTable t)])
          (stdout w ++ ["Input data is valid for Iceberg."]))) /\
  (lib_overwrite tb (PyTable t) s1 = (Raised e, s2) ->
   write self (PyTable t) destination "overwrite" w =
   (Raised e,
    World (environ w) s2
          (calls w ++ [CreateTableIfNotExists (catalog self) destination (schema t);
                       TableOverwrite tb (PyTable t)])
          (stdout w ++ ["Input data is valid for Iceberg."]))).
Proof.
  intros Hne H1. split; intros H2; unfold write; unfold bind at 1;
    rewrite (validate_data_valid t w Hne);
    unfold create_table_from_pyarrow, py_schema, table_append, table_overwrite;
    unfold_monad; simpl; rewrite H1; simpl; rewrite H2; simpl;
    by rewrite <- !app_assoc.
Qed.

(** X11: a [write] that returns was given a non-empty columnar table and
    the mode "append" or "overwrite"; it made exactly two calls, the
    create-if-absent of the destination and then the operation of that
    mode on the table the catalog returned, and printed the validation
    line and the success line. *)
Theorem write_returned (self : IcebergWriter) (v : pyval)
        (destination mode : string) (w w' : world S) :
  write self v destination mode w = (Returned tt, w') ->
  exists t tb s1,
    v = PyTable t /\ rows t <> [] /\
    lib_create_table_if_not_exists (catalog self) destination (schema t) (ext w)
      = (Returned tb, s1) /\
    ((mode = "append" /\
      lib_append tb v s1 = (Returned tt, ext w') /\
      calls w' = calls w ++
        [CreateTableIfNotExists (catalog self) destination (schema t);
         TableAppend tb v]) \/
     (mode = "overwrite" /\
      lib_overwrite tb v s1 = (Returned tt, ext w') /\
      calls w' = calls w ++
        [CreateTableIfNotExists (catalog self) destination (schema t);
         TableOverwrite tb v])) /\
    stdout w' = stdout w ++
      ["Input data is valid for Iceberg.";
       "Data successfully written to Iceberg table '" +:+ destination
       +:+ "' in " +:+ mode +:+ " mode."].
Proof.
  unfold write, validate_data, create_table_from_pyarrow, py_schema,
    table_append, table_overwrite.
  destruct v as [| | | | |t]; unfold_monad; try discriminate.
  destruct (rows t) as [|row rest] eqn:Hrows; simpl; [discriminate|].
  destruct (lib_create_table_if_not_exists _ _ _ _) as [[tb|e] s1] eqn:H1; simpl.
  - case_bool_decide as Happ; [|case_bool_decide as Hov]; simpl.
    + destruct (lib_append _ _ _) as [[[]|e] s2] eqn:H2; simpl; [|discriminate].
      intros [= <-]. exists t, tb, s1. simpl. rewrite Hrows, <- !app_assoc.
      split_and!; [done..| by left | done].
    + destruct (lib_overwrite _ _ _) as [[[]|e] s2] eqn:H2; simpl; [|discriminate].
      intros [= <-]. exists t, tb, s1. simpl. rewrite Hrows, <- !app_assoc.
      split_and!; [done..| by right | done].
    + discriminate.
  - case_bool_decide; [|case_bool_decide]; simpl; discriminate.
Qed.

(** X12: with a catalog that answers, [write] returns exactly on a
    non-empty columnar table in mode "append" or "overwrite"; on anything
    else it raises. *)
Theorem write_returns_iff (self : IcebergWriter) (v : pyval)
        (destination mode : string) (w : world S) :
  catalog_operations_succeed ->
  (exists w', write self v destination mode w = (Returned tt, w')) <->
  ((exists t, v = PyTable t /\ rows t <> []) /\
   (mode = "append" \/ mode = "overwrite")).
Proof.
  intros (Hcreate & Happend & Hoverwrite). split.
  - intros [w' Hrun].
    unfold write, validate_data, create_table_from_pyarrow, py_schema,
      table_append, table_overwrite in Hrun.
    destruct v as [| | | | |t]; unfold_monad; try discriminate.
    destruct (rows t) as [|row rest] eqn:Hrows; simpl in Hrun; [discriminate|].
    split; [exists t; by rewrite Hrows|].
    destruct (lib_create_table_if_not_exists _ _ _ _) as [[tb|e] s1];
      simpl in Hrun;
      (case_bool_decide; [by left|]); (case_bool_decide; [by right|]);
      simpl in Hrun; discriminate.
  - intros [(t & -> & Hne) Hmode].
    destruct (Hcreate (catalog self) destination (schema t) (ext w))
      as (tb & s1 & H1).
    unfold write. unfold bind at 1. rewrite (validate_data_valid t w Hne).
    unfold create_table_from_pyarrow, py_schema, table_append, table_overwrite.
    unfold_monad. simpl. rewrite H1. simpl.
    destruct Hmode as [-> | ->]; simpl.
    + destruct (Happend tb t s1) as ([] & s2 & ->). simpl. eauto.
    + destruct (Hoverwrite tb t s1) as ([] & s2 & ->). simpl. eauto.
Qed.

End Writing_more.

(** ** The environment, continued *)

Section Environment_more.
Context {S : Type} `{!External S}.

Lemma destination_config_returns (w : world S) (p cat wh ms : string) :
  config_set (environ w) p cat wh ms ->
  get_iceberg_destination_config w =
  (Returned (destination_config_of (environ w) p cat wh ms), w).
Proof.
  intros (Hp & Hcat & Hwh & Hms). unfold get_iceberg_destination_config.
  unfold bind at 1. rewrite (get_env_var_set _ _ _ _ Hp).
  unfold bind at 1. rewrite (get_env_var_set _ _ _ _ Hcat).
  unfold bind at 1. rewrite (get_env_var_set _ _ _ _ Hwh).
  unfold bind at 1. rewrite (get_env_var_set _ _ _ _ Hms).
  unfold bind at 1. rewrite get_env_var_optional.
  unfold bind at 1. rewrite get_env_var_optional.
  reflexivity.
Qed.

(** X13: [get_iceberg_destination_config] reads four required variables
    and two optional ones: when the four are set it returns exactly six
    entries, with the table and the namespace defaulting to
    "dlt_default_table" and "dlt_default_namespace"; a variable set to the
    empty string counts as set. *)
Theorem destination_config_entries (w : world S) (p cat wh ms : string) :
  config_set (environ w) p cat wh ms ->
  exists cfg,
    get_iceberg_destination_config w = (Returned cfg, w) /\
    dom cfg = {[ "cloud_provider"; "catalog"; "warehouse_path"; "metastore_url";
                 "table"; "namespace" ]} /\
    cfg !! "cloud_provider" = Some p /\ cfg !! "catalog" = Some cat /\
    cfg !! "warehouse_path" = Some wh /\ cfg !! "metastore_url" = Some ms /\
    cfg !! "table" = Some (default "dlt_default_table"
                      (environ w !! "DESTINATION__ICEBERG__CONFIG__TABLE")) /\
    cfg !! "namespace" = Some (default "dlt_default_namespace"
                      (environ w !! "DESTINATION__ICEBERG__CONFIG__NAMESPACE")).
Proof.
  intros Hset. eexists. split; [by apply destination_config_returns|].
  unfold destination_config_of. split.
  - rewrite !dom_insert_L, dom_empty_L. set_solver.
  - split_and!; by simplify_map_eq.
Qed.

(** X14: the destination callback names the first required variable that
    is unset, in the order it reads them (configuration first, then the
    secrets of the selected provider), whatever the later ones are; it
    raises before any external call. *)
Theorem first_unset_variable_is_named (w : world S) (v : string)
        (resources : arrow_table) (data_dict : gmap string string) :
  first_unset (environ w)
    (required_variables
       (default "" (environ w !! "DESTINATION__ICEBERG__CONFIG__CLOUD_PROVIDER")))
    = Some v ->
  iceberg_insert resources data_dict w =
  (Raised (Exn ValueError ("Environment variable '" +:+ v
                           +:+ "' is required but not set.")), w).
Proof.
  unfold iceberg_insert, get_iceberg_destination_config, required_variables.
  unfold get_iceberg_credentials, get_env_var. unfold_monad. simpl.
  destruct (environ w !! "DESTINATION__ICEBERG__CONFIG__CLOUD_PROVIDER")
    as [p|] eqn:E1; simpl; [|by intros [= <-]].
  destruct (environ w !! "DESTINATION__ICEBERG__CONFIG__CATALOG")
    as [cat|] eqn:E2; simpl; [|by intros [= <-]].
  destruct (environ w !! "DESTINATION__ICEBERG__CONFIG__WAREHOUSE_PATH")
    as [wh|] eqn:E3; simpl; [|by intros [= <-]].
  destruct (environ w !! "DESTINATION__ICEBERG__CONFIG__METASTORE_URL")
    as [ms|] eqn:E4; simpl; [|by intros [= <-]].
  destruct (environ w !! "DESTINATION__ICEBERG__CONFIG__TABLE");
  destruct (environ w !! "DESTINATION__ICEBERG__CONFIG__NAMESPACE"); simpl;
    rewrite lookup_insert_eq; simpl;
    repeat case_bool_decide; subst; simpl;
    repeat
      (match goal with
       | |- context [first_unset _ (?k :: _)] => simpl
       | |- context [match environ w !! ?k with _ => _ end] =>
           let E := fresh "E" in
           destruct (environ w !! k) eqn:E; simpl
       end);
    try discriminate; try (by intros [= <-]).
Qed.

(** X15: with the four configuration variables set and a provider value
    that is none of "s3", "abfss" and "gcs", the destination callback asks
    for no secret at all and raises the constructor's ValueError, before any
    external call. *)
Theorem unsupported_provider_in_environment (w : world S)
        (p cat wh ms : string) (resources : arrow_table)
        (data_dict : gmap string string) :
  config_set (environ w) p cat wh ms ->
  p <> "s3" -> p <> "abfss" -> p <> "gcs" ->
  iceberg_insert resources data_dict w =
  (Raised (Exn ValueError
     "Unsupported cloud provider. Supported providers are 's3', 'abfss', and 'gcp'."),
   w).
Proof.
  intros Hset Hs3 Habfss Hgcs. unfold iceberg_insert.
  unfold bind at 1. rewrite (destination_config_returns _ _ _ _ _ Hset).
  assert (destination_config_of (environ w) p cat wh ms !! "cloud_provider"
          = Some p) as Hp by (unfold destination_config_of; by simplify_map_eq).
  rewrite Hp. simpl.
  unfold get_iceberg_credentials. rewrite !bool_decide_eq_false_2 by done.
  unfold bind at 1. unfold ret at 1. unfold bind at 1.
  assert (dict_get (PyStr <$> (∅ ∪ destination_config_of (environ w) p cat wh ms))
                   "cloud_provider" PyNone = PyStr p) as Hget.
  { unfold dict_get. by rewrite lookup_fmap, (left_id_L ∅ (∪)), Hp. }
  unfold IcebergWriter_init. rewrite Hget. simpl.
  rewrite !bool_decide_eq_false_2 by done. reflexivity.
Qed.

End Environment_more.

(** ** From the environment to the catalog client *)

(** Reading the merged, environment-derived connection. *)
Ltac read_connection :=
  unfold dict_get, destination_config_of;
  rewrite ?lookup_fmap, ?lookup_union; by simplify_map_eq.

Section Environment_to_catalog.
Context {S : Type} `{!External S}.

Lemma init_s3_calls (connection : gmap string pyval) (w : world S) :
  dict_get connection "cloud_provider" PyNone = PyStr "s3" ->
  calls (IcebergWriter_init connection w).2 =
  calls w ++ [LoadCatalog "iceberg_catalog" (s3_properties connection)].
Proof.
  intros Hp. unfold IcebergWriter_init, load_catalog. rewrite Hp. simpl.
  unfold_monad. by destruct (lib_load_catalog _ _ _) as [[[]|e] s'].
Qed.

Lemma init_abfss_calls (connection : gmap string pyval) (w : world S) :
  dict_get connection "cloud_provider" PyNone = PyStr "abfss" ->
  calls (IcebergWriter_init connection w).2 =
  calls w ++ [LoadCatalog "iceberg_catalog" (abfss_properties connection)].
Proof.
  intros Hp. unfold IcebergWriter_init, load_catalog. rewrite Hp. simpl.
  unfold_monad. by destruct (lib_load_catalog _ _ _) as [[[]|e] s'].
Qed.

(** Once configuration and credentials are read, the callback's calls are
    the constructor's, followed by whatever the write makes. *)
Lemma iceberg_insert_calls_after_init resources data_dict (w : world S)
      (cfg creds : gmap string string) :
  get_iceberg_destination_config w = (Returned cfg, w) ->
  get_iceberg_credentials (default "" (cfg !! "cloud_provider")) w
    = (Returned creds, w) ->
  exists after,
    calls (iceberg_insert resources data_dict w).2 =
    calls (IcebergWriter_init (PyStr <$> (creds ∪ cfg)) w).2 ++ after.
Proof.
  intros Hcfg Hcreds. unfold iceberg_insert.
  unfold bind at 1. rewrite Hcfg.
  unfold bind at 1. rewrite Hcreds.
  unfold bind at 1.
  destruct (IcebergWriter_init _ w) as [[writer|e] w1] eqn:Hinit; simpl;
    [|exists []; by rewrite app_nil_r].
  match goal with
  | |- context [calls (?m w1).2] =>
      assert (only_calls not_append m) as Hrest;
      [ repeat first [apply overwrite_never_appends | only_calls_step]
      | destruct (m w1) as [r w2] eqn:Hrun;
        destruct (Hrest _ _ _ Hrun) as (after & Hafter & _) ]
  end.
  exists after. simpl. by rewrite Hafter.
Qed.

Lemma s3_credentials_return (w : world S) (key_id secret : string) :
  environ w !! "S3__CREDENTIALS__AWS_ACCESS_KEY_ID" = Some key_id ->
  environ w !! "S3__CREDENTIALS__AWS_SECRET_ACCESS_KEY" = Some secret ->
  get_iceberg_credentials "s3" w =
  (Returned (<["aws_access_key_id" := key_id]>
             (<["aws_secret_access_key" := secret]>
              (<["region" := default "ap-south-1"
                   (environ w !! "S3__CREDENTIALS__REGION")]> ∅))), w).
Proof.
  intros Hk Hs. unfold get_iceberg_credentials. simpl.
  unfold bind at 1. rewrite (get_env_var_set _ _ _ _ Hk).
  unfold bind at 1. rewrite (get_env_var_set _ _ _ _ Hs).
  unfold bind at 1. by rewrite get_env_var_optional.
Qed.

Lemma abfss_credentials_return (w : world S) (suffix name key : string) :
  environ w !! "ABFSS__CREDENTIALS__AZUREENDPOINTSUFFIX" = Some suffix ->
  environ w !! "ABFSS__CREDENTIALS__AZURESTORAGEACCOUNTNAME" = Some name ->
  environ w !! "ABFSS__CREDENTIALS__AZURESTORAGEACCOUNTKEY" = Some key ->
  get_iceberg_credentials "abfss" w =
  (Returned (<["azureendpointsuffix" := suffix]>
             (<["azurestorageaccountname" := name]>
              (<["azurestorageaccountkey" := key]> ∅))), w).
Proof.
  intros H1 H2 H3. unfold get_iceberg_credentials. simpl.
  unfold bind at 1. rewrite (get_env_var_set _ _ _ _ H1).
  unfold bind at 1. rewrite (get_env_var_set _ _ _ _ H2).
  unfold bind at 1. by rewrite (get_env_var_set _ _ _ _ H3).
Qed.

Lemma gcs_credentials_return (w : world S) (project path : string) :
  environ w !! "GCS__CREDENTIALS__PROJECT_ID" = Some project ->
  environ w !! "GCS__CREDENTIALS__SECRET_FILE_PATH" = Some path ->
  get_iceberg_credentials "gcs" w =
  (Returned (<["project-is" := project]>
             (<["secret_file_path" := path]> ∅)), w).
Proof.
  intros H1 H2. unfold get_iceberg_credentials. simpl.
  unfold bind at 1. rewrite (get_env_var_set _ _ _ _ H1).
  unfold bind at 1. by rewrite (get_env_var_set _ _ _ _ H2).
Qed.

(** X16: in an s3 environment the destination callback's first and only
    construction call is load_catalog, with uri, access key and secret key
    equal to the values of the environment and s3.region equal to
    S3__CREDENTIALS__REGION, or "ap-south-1" when that is unset; the
    catalog name and the warehouse path, though required, play no part. *)
Theorem s3_environment_reaches_catalog (w : world S)
        (cat wh ms key_id secret : string) resources data_dict :
  config_set (environ w) "s3" cat wh ms ->
  environ w !! "S3__CREDENTIALS__AWS_ACCESS_KEY_ID" = Some key_id ->
  environ w !! "S3__CREDENTIALS__AWS_SECRET_ACCESS_KEY" = Some secret ->
  exists after,
    calls (iceberg_insert resources data_dict w).2 =
    calls w ++
    LoadCatalog "iceberg_catalog"
      (<["uri" := PyStr ms]>
       (<["s3.access-key-id" := PyStr key_id]>
        (<["s3.secret-access-key" := PyStr secret]>
         (<["s3.region" := PyStr (default "ap-south-1"
              (environ w !! "S3__CREDENTIALS__REGION"))]> ∅))))
    :: after.
Proof.
  intros Hset Hk Hs.
  pose proof (destination_config_returns _ _ _ _ _ Hset) as Hcfg.
  set (cfg := destination_config_of (environ w) "s3" cat wh ms) in *.
  assert (default "" (cfg !! "cloud_provider") = "s3") as Hp
    by (unfold cfg, destination_config_of; by simplify_map_eq).
  pose proof (s3_credentials_return _ _ _ Hk Hs) as Hcreds.
  rewrite <- Hp in Hcreds.
  destruct (iceberg_insert_calls_after_init resources data_dict w _ _ Hcfg Hcreds)
    as [after ->].
  rewrite init_s3_calls by (unfold cfg; read_connection).
  exists after. rewrite <- app_assoc. reflexivity.
Qed.

(** Construction for gcs when the services answer, with the scopes that
    are requested. *)
Lemma init_gcs_run (connection : gmap string pyval) (w : world S) :
  services_available ->
  dict_get connection "cloud_provider" PyNone = PyStr "gcs" ->
  scopes_usable (dict_get connection "scopes" PyNone) ->
  let path := dict_get connection "secret_file_path" (PyStr "") in
  let sc := effective_scopes (dict_get connection "scopes" PyNone) in
  exists cred tok s1 s2 s3,
    lib_load_credentials_from_file path sc (ext w) = (Returned cred, s1) /\
    lib_refresh cred s1 = (Returned tok, s2) /\
    IcebergWriter_init connection w =
    (Returned {| catalog := Catalog "iceberg_catalog"
                   (gcs_properties connection
                      (lib_timestamp s2 + 10000) tok) |},
     World (environ w) s3
           (calls w ++
              [LoadCredentialsFromFile path sc; CredentialsRefresh cred;
               LoadCatalog "iceberg_catalog"
                 (gcs_properties connection
                    (lib_timestamp s2 + 10000) tok)])
           (stdout w)).
Proof.
  intros (Hload & Hrefresh & Hcat) Hp Hsc path sc.
  destruct (Hload path sc (ext w)) as (cred & s1 & H1).
  destruct (Hrefresh cred s1) as (tok & s2 & H2).
  destruct (Hcat "iceberg_catalog"
              (gcs_properties connection
                 (lib_timestamp s2 + 10000) tok) s2)
    as ([] & s3 & H3).
  exists cred, tok, s1, s2, s3. split_and!; [done..|].
  unfold IcebergWriter_init. rewrite Hp. simpl.
  unfold get_access_token. unfold bind at 1. unfold bind at 1.
  rewrite (scopes_step _ w Hsc). unfold load_catalog. unfold_monad.
  fold path sc. rewrite H1. simpl. rewrite H2. simpl. rewrite H3.
  by rewrite <- !app_assoc.
Qed.

(** X17: in an abfss environment the construction call is load_catalog
    with the fsspec file IO, the storage account name and key and the
    metastore URL of the environment; the endpoint suffix, though required,
    does not reach the catalog, nor do the catalog name and the warehouse
    path. *)
Theorem abfss_environment_reaches_catalog (w : world S)
        (cat wh ms suffix name key : string) resources data_dict :
  config_set (environ w) "abfss" cat wh ms ->
  environ w !! "ABFSS__CREDENTIALS__AZUREENDPOINTSUFFIX" = Some suffix ->
  environ w !! "ABFSS__CREDENTIALS__AZURESTORAGEACCOUNTNAME" = Some name ->
  environ w !! "ABFSS__CREDENTIALS__AZURESTORAGEACCOUNTKEY" = Some key ->
  exists after,
    calls (iceberg_insert resources data_dict w).2 =
    calls w ++
    LoadCatalog "iceberg_catalog"
      (<["py-io-impl" := PyStr "pyiceberg.io.fsspec.FsspecFileIO"]>
       (<["adls.account-name" := PyStr name]>
        (<["adls.account-key" := PyStr key]>
         (<["uri" := PyStr ms]> ∅))))
    :: after.
Proof.
  intros Hset H1 H2 H3.
  pose proof (destination_config_returns _ _ _ _ _ Hset) as Hcfg.
  set (cfg := destination_config_of (environ w) "abfss" cat wh ms) in *.
  assert (default "" (cfg !! "cloud_provider") = "abfss") as Hp
    by (unfold cfg, destination_config_of; by simplify_map_eq).
  pose proof (abfss_credentials_return _ _ _ _ H1 H2 H3) as Hcreds.
  rewrite <- Hp in Hcreds.
  destruct (iceberg_insert_calls_after_init resources data_dict w _ _ Hcfg Hcreds)
    as [after ->].
  rewrite init_abfss_calls by (unfold cfg; read_connection).
  exists after. rewrite <- app_assoc. reflexivity.
Qed.

(** X18: in a gcs environment the destination callback first asks
    google.auth for the key file named by GCS__CREDENTIALS__SECRET_FILE_PATH,
    always with the default cloud-platform scope (the environment gives no
    scopes); when the services answer, the catalog client then gets the
    metastore URL as uri and the warehouse path as
    gcs.default-bucket-location. *)
Theorem gcs_environment_reaches_catalog (w : world S)
        (cat wh ms project path : string) resources data_dict :
  config_set (environ w) "gcs" cat wh ms ->
  environ w !! "GCS__CREDENTIALS__PROJECT_ID" = Some project ->
  environ w !! "GCS__CREDENTIALS__SECRET_FILE_PATH" = Some path ->
  (exists rest,
      calls (iceberg_insert resources data_dict w).2 =
      calls w ++ LoadCredentialsFromFile (PyStr path) default_scopes :: rest) /\
  (services_available ->
   exists cred tok expiry after,
     calls (iceberg_insert resources data_dict w).2 =
     calls w ++
     [LoadCredentialsFromFile (PyStr path) default_scopes;
      CredentialsRefresh cred;
      LoadCatalog "iceberg_catalog"
        (<["py-io-impl" := PyStr "pyiceberg.io.fsspec.FsspecFileIO"]>
         (<["uri" := PyStr ms]>
          (<["gcs.project-id" := PyStr ""]>
           (<["gcs.default-bucket-location" := PyStr wh]>
            (<["gcs.oauth2.token-expires-at" := PyInt expiry]>
             (<["gcs.oauth2.token" := PyCredentials tok]> ∅))))))]
     ++ after).
Proof.
  intros Hset H1 H2.
  pose proof (destination_config_returns _ _ _ _ _ Hset) as Hcfg.
  set (cfg := destination_config_of (environ w) "gcs" cat wh ms) in *.
  assert (default "" (cfg !! "cloud_provider") = "gcs") as Hp
    by (unfold cfg, destination_config_of; by simplify_map_eq).
  pose proof (gcs_credentials_return _ _ _ H1 H2) as Hcreds.
  rewrite <- Hp in Hcreds.
  destruct (iceberg_insert_calls_after_init resources data_dict w _ _ Hcfg Hcreds)
    as [after ->].
  set (connection := PyStr <$> _).
  assert (dict_get connection "cloud_provider" PyNone = PyStr "gcs") as Hprov
    by (unfold connection, cfg; read_connection).
  assert (dict_get connection "scopes" PyNone = PyNone) as Hscopes
    by (unfold connection, cfg; read_connection).
  assert (dict_get connection "secret_file_path" (PyStr "") = PyStr path) as Hpath
    by (unfold connection, cfg; read_connection).
  assert (scopes_usable (dict_get connection "scopes" PyNone)) as Hsc
    by (rewrite Hscopes; by left).
  split.
  - unfold IcebergWriter_init. rewrite Hprov. simpl.
    unfold get_access_token. rewrite Hscopes, Hpath. unfold_monad.
    destruct (lib_load_credentials_from_file _ _ _) as [[cred|e] s1]; simpl.
    + destruct (lib_refresh _ _) as [[tok|e] s2]; simpl.
      * unfold load_catalog. unfold_monad.
        destruct (lib_load_catalog _ _ _) as [[[]|e] s3]; simpl;
          eexists; rewrite <- !app_assoc; reflexivity.
      * eexists. rewrite <- !app_assoc. reflexivity.
    + eexists. rewrite <- !app_assoc. reflexivity.
  - intros Hsrv.
    destruct (init_gcs_run connection w Hsrv Hprov Hsc)
      as (cred & tok & s1 & s2 & s3 & _ & _ & Hinit).
    rewrite Hinit, Hscopes, Hpath. simpl.
    exists cred, tok, (lib_timestamp s2 + 10000), after.
    rewrite <- !app_assoc. simpl. reflexivity.
Qed.

End Environment_to_catalog.

(** ** The destination callback, continued *)

Section Callback_more.
Context {S : Type} `{!External S}.

(** Once the writer is constructed, the callback is the overwrite of the
    destination with the batch, followed by the final line. *)
Lemma iceberg_insert_unfolds resources data_dict (w w1 : world S)
      (cfg creds : gmap string string) (writer : IcebergWriter) :
  get_iceberg_destination_config w = (Returned cfg, w) ->
  get_iceberg_credentials (default "" (cfg !! "cloud_provider")) w
    = (Returned creds, w) ->
  IcebergWriter_init (PyStr <$> (creds ∪ cfg)) w = (Returned writer, w1) ->
  iceberg_insert resources data_dict w =
  (do! write writer (PyTable (ArrowTable (schema resources) (rows resources)))
             (destination_of (environ w) data_dict) "overwrite" in
   print ("Data successfully written to Iceberg table "
          +:+ destination_of (environ w) data_dict +:+ "!")) w1.
Proof.
  intros Hcfg Hcreds Hinit.
  destruct (destination_config_returned _ _ _ Hcfg) as (_ & Htable & Hns).
  destruct (credentials_returned _ _ _ _ Hcreds) as (_ & Hctable & Hcns).
  unfold iceberg_insert.
  unfold bind at 1. rewrite Hcfg.
  unfold bind at 1. rewrite Hcreds.
  unfold bind at 1. rewrite Hinit.
  unfold bind at 1. unfold lift, from_batches. simpl. rewrite app_nil_r.
  rewrite !(lookup_union_r creds cfg) by done.
  rewrite Htable, Hns. simpl.
  assert (forall x : string,
    bool_decide (Some x <> Some "dlt_default_table")
    = bool_decide (x <> "dlt_default_table")) as Hdec.
  { intros x. apply bool_decide_ext. split; intros Hx; congruence. }
  rewrite Hdec. reflexivity.
Qed.

(** With every required variable set for a supported provider and
    services that answer, the writer is constructed, without any table
    operation. *)
Lemma iceberg_insert_constructs (w : world S) :
  let p := default ""
    (environ w !! "DESTINATION__ICEBERG__CONFIG__CLOUD_PROVIDER") in
  p = "s3" \/ p = "abfss" \/ p = "gcs" ->
  first_unset (environ w) (required_variables p) = None ->
  services_available ->
  exists cfg creds writer w1 new,
    get_iceberg_destination_config w = (Returned cfg, w) /\
    get_iceberg_credentials (default "" (cfg !! "cloud_provider")) w
      = (Returned creds, w) /\
    IcebergWriter_init (PyStr <$> (creds ∪ cfg)) w = (Returned writer, w1) /\
    calls w1 = calls w ++ new /\ Forall not_catalog new /\
    stdout w1 = stdout w.
Proof.
  intros p Hp Hunset Hsrv. subst p.
  unfold required_variables in Hunset. simpl in Hunset.
  destruct (environ w !! "DESTINATION__ICEBERG__CONFIG__CLOUD_PROVIDER")
    as [p|] eqn:E1; [|discriminate].
  destruct (environ w !! "DESTINATION__ICEBERG__CONFIG__CATALOG")
    as [cat|] eqn:E2; [|discriminate].
  destruct (environ w !! "DESTINATION__ICEBERG__CONFIG__WAREHOUSE_PATH")
    as [wh|] eqn:E3; [|discriminate].
  destruct (environ w !! "DESTINATION__ICEBERG__CONFIG__METASTORE_URL")
    as [ms|] eqn:E4; [|discriminate].
  simpl in Hp.
  assert (config_set (environ w) p cat wh ms) as Hset by done.
  pose proof (destination_config_returns _ _ _ _ _ Hset) as Hcfg.
  set (cfg := destination_config_of (environ w) p cat wh ms) in *.
  assert (default "" (cfg !! "cloud_provider") = p) as Hprov
    by (unfold cfg, destination_config_of; by simplify_map_eq).
  assert (forall (creds : gmap string string),
            creds !! "cloud_provider" = None ->
            dict_get (PyStr <$> (creds ∪ cfg)) "cloud_provider" PyNone = PyStr p)
    as Hget.
  { intros creds Hnone. unfold dict_get.
    rewrite lookup_fmap, (lookup_union_r creds cfg) by done.
    unfold cfg, destination_config_of. by simplify_map_eq. }
  destruct Hp as [-> | [-> | ->]]; simpl in Hunset.
  - destruct (environ w !! "S3__CREDENTIALS__AWS_ACCESS_KEY_ID")
      as [k|] eqn:F1; [|discriminate].
    destruct (environ w !! "S3__CREDENTIALS__AWS_SECRET_ACCESS_KEY")
      as [s|] eqn:F2; [|discriminate].
    pose proof (s3_credentials_return _ _ _ F1 F2) as Hcreds.
    rewrite <- Hprov in Hcreds at 1.
    set (creds := <["aws_access_key_id" := k]> _) in *.
    destruct (init_s3_returns (PyStr <$> (creds ∪ cfg)) w Hsrv) as [s' Hinit].
    { apply Hget. unfold creds. by simplify_map_eq. }
    eexists cfg, creds, _, _, [_].
    split_and!; [done | done | exact Hinit | done | by repeat constructor
                | simpl; by rewrite app_nil_r].
  - destruct (environ w !! "ABFSS__CREDENTIALS__AZUREENDPOINTSUFFIX")
      as [x|] eqn:F1; [|discriminate].
    destruct (environ w !! "ABFSS__CREDENTIALS__AZURESTORAGEACCOUNTNAME")
      as [n|] eqn:F2; [|discriminate].
    destruct (environ w !! "ABFSS__CREDENTIALS__AZURESTORAGEACCOUNTKEY")
      as [k|] eqn:F3; [|discriminate].
    pose proof (abfss_credentials_return _ _ _ _ F1 F2 F3) as Hcreds.
    rewrite <- Hprov in Hcreds at 1.
    set (creds := <["azureendpointsuffix" := x]> _) in *.
    destruct (init_abfss_returns (PyStr <$> (creds ∪ cfg)) w Hsrv) as [s' Hinit].
    { apply Hget. unfold creds. by simplify_map_eq. }
    eexists cfg, creds, _, _, [_].
    split_and!; [done | done | exact Hinit | done | by repeat constructor
                | simpl; by rewrite app_nil_r].
  - destruct (environ w !! "GCS__CREDENTIALS__PROJECT_ID")
      as [pr|] eqn:F1; [|discriminate].
    destruct (environ w !! "GCS__CREDENTIALS__SECRET_FILE_PATH")
      as [sf|] eqn:F2; [|discriminate].
    pose proof (gcs_credentials_return _ _ _ F1 F2) as Hcreds.
    rewrite <- Hprov in Hcreds at 1.
    set (creds := <["project-is" := pr]> _) in *.
    destruct (init_gcs_run (PyStr <$> (creds ∪ cfg)) w Hsrv)
      as (cred & tok & s1 & s2 & s3 & _ & _ & Hinit).
    { apply Hget. unfold creds. by simplify_map_eq. }
    { left. unfold creds, cfg. read_connection. }
    eexists cfg, creds, _, _, [_; _; _].
    split_and!; [done | done | exact Hinit | done | by repeat constructor | done].
Qed.

Lemma write_overwrite_returns (self : IcebergWriter) (t : arrow_table)
      (destination : string) (w : world S) :
  catalog_operations_succeed -> rows t <> [] ->
  exists tb s2,
    write self (PyTable t) destination "overwrite" w =
    (Returned tt,
     World (environ w) s2
           (calls w ++
              [CreateTableIfNotExists (catalog self) destination (schema t);
               TableOverwrite tb (PyTable t)])
           (stdout w ++
              ["Input data is valid for Iceberg.";
               "Data successfully written to Iceberg table '" +:+ destination
               +:+ "' in overwrite mode."])).
Proof.
  intros (Hcreate & _ & Hoverwrite) Hne.
  destruct (Hcreate (catalog self) destination (schema t) (ext w))
    as (tb & s1 & H1).
  destruct (Hoverwrite tb t s1) as ([] & s2 & H2).
  exists tb, s2.
  unfold write. unfold bind at 1. rewrite (validate_data_valid t w Hne).
  unfold create_table_from_pyarrow, py_schema, table_overwrite.
  unfold_monad. simpl. rewrite H1. simpl. rewrite H2.
  simpl. rewrite <- !app_assoc. reflexivity.
Qed.

(** X19: an empty batch is fatal.  With every required variable set for a
    supported provider and services that answer, the callback constructs
    the writer and then raises "Input data cannot be empty."; no table is
    created, appended to or overwritten. *)
Theorem empty_batch_is_fatal resources data_dict (w : world S) :
  let p := default ""
    (environ w !! "DESTINATION__ICEBERG__CONFIG__CLOUD_PROVIDER") in
  p = "s3" \/ p = "abfss" \/ p = "gcs" ->
  first_unset (environ w) (required_variables p) = None ->
  services_available ->
  rows resources = [] ->
  exists w' new,
    iceberg_insert resources data_dict w =
    (Raised (Exn ValueError "Input data cannot be empty."), w') /\
    calls w' = calls w ++ new /\ Forall not_catalog new /\
    stdout w' = stdout w.
Proof.
  intros p Hp Hunset Hsrv Hrows.
  destruct (iceberg_insert_constructs w Hp Hunset Hsrv)
    as (cfg & creds & writer & w1 & new & Hcfg & Hcreds & Hinit & Hcalls & Hnew & Hout).
  exists w1, new.
  rewrite (iceberg_insert_unfolds _ _ _ _ _ _ _ Hcfg Hcreds Hinit).
  unfold write, validate_data. unfold_monad. simpl. rewrite Hrows. simpl.
  by split_and!.
Qed.

(** X20: end to end.  With every required variable set for a supported
    provider, services and catalog that answer and a non-empty batch, the
    callback returns; after constructing the writer it makes exactly the
    create-if-absent call and one overwrite of the destination with the
    batch, and prints the validation line and both success lines. *)
Theorem callback_end_to_end resources data_dict (w : world S) :
  let p := default ""
    (environ w !! "DESTINATION__ICEBERG__CONFIG__CLOUD_PROVIDER") in
  let destination := destination_of (environ w) data_dict in
  let data := PyTable (ArrowTable (schema resources) (rows resources)) in
  p = "s3" \/ p = "abfss" \/ p = "gcs" ->
  first_unset (environ w) (required_variables p) = None ->
  services_available -> catalog_operations_succeed ->
  rows resources <> [] ->
  exists w' before cat tb,
    iceberg_insert resources data_dict w = (Returned tt, w') /\
    Forall not_catalog before /\
    calls w' = calls w ++ before ++
      [CreateTableIfNotExists cat destination (schema resources);
       TableOverwrite tb data] /\
    stdout w' = stdout w ++
      ["Input data is valid for Iceberg.";
       "Data successfully written to Iceberg table '" +:+ destination
       +:+ "' in overwrite mode.";
       "Data successfully written to Iceberg table " +:+ destination +:+ "!"].
Proof.
  intros p destination data Hp Hunset Hsrv Hcat Hne.
  destruct (iceberg_insert_constructs w Hp Hunset Hsrv)
    as (cfg & creds & writer & w1 & new & Hcfg & Hcreds & Hinit & Hcalls & Hnew & Hout).
  rewrite (iceberg_insert_unfolds _ _ _ _ _ _ _ Hcfg Hcreds Hinit).
  fold destination.
  destruct (write_overwrite_returns writer
              (ArrowTable (schema resources) (rows resources))
              destination w1 Hcat Hne) as (tb & s2 & Hwrite).
  unfold bind. rewrite Hwrite. unfold print. simpl.
  eexists _, new, (catalog writer), tb. split; [reflexivity|]. simpl.
  split; [done|]. rewrite Hcalls, Hout, <- !app_assoc. by split.
Qed.

End Callback_more.

(** ** The environment is only read *)

Section Keeps_environ.
Context {S : Type}.

Lemma keeps_environ_ret {A} (a : A) : keeps_environ (S:=S) (ret a).
Proof. by intros w r w' [= <- <-]. Qed.

Lemma keeps_environ_raise {A} (e : exn) : keeps_environ (S:=S) (A:=A) (raise e).
Proof. by intros w r w' [= <- <-]. Qed.

Lemma keeps_environ_lift {A} (o : outcome A) : keeps_environ (S:=S) (lift o).
Proof. by intros w r w' [= <- <-]. Qed.

Lemma keeps_environ_print (line : string) : keeps_environ (S:=S) (print line).
Proof. by intros w r w' [= <- <-]. Qed.

Lemma keeps_environ_os_getenv (key : string) (default : option string) :
  keeps_environ (S:=S) (os_getenv key default).
Proof. by intros w r w' [= <- <-]. Qed.

Lemma keeps_environ_now `{!External S} : keeps_environ (S:=S) now_timestamp_int.
Proof. by intros w r w' [= <- <-]. Qed.

Lemma keeps_environ_external {A} (c : call) (f : S -> outcome A * S) :
  keeps_environ (external c f).
Proof.
  intros w r w'. unfold external. destruct (f (ext w)) as [r' s'].
  by intros [= <- <-].
Qed.

Lemma keeps_environ_bind {A B} (m : M S A) (k : A -> M S B) :
  keeps_environ m -> (forall a, keeps_environ (k a)) -> keeps_environ (bind m k).
Proof.
  intros Hm Hk w r w'. unfold bind.
  destruct (m w) as [[a|e] w1] eqn:Hmw.
  - intros Hkw. rewrite (Hk a _ _ _ Hkw). by eapply Hm.
  - intros [= <- <-]. by eapply Hm.
Qed.

Lemma keeps_environ_try_except {A} (m : M S A) (h : exn -> M S A) :
  keeps_environ m -> (forall e, keeps_environ (h e)) ->
  keeps_environ (try_except m h).
Proof.
  intros Hm Hh w r w'. unfold try_except.
  destruct (m w) as [[a|e] w1] eqn:Hmw.
  - intros [= <- <-]. by eapply Hm.
  - intros Hhw. rewrite (Hh e _ _ _ Hhw). by eapply Hm.
Qed.

End Keeps_environ.

Ltac keeps_environ_step :=
  lazymatch goal with
  | |- keeps_environ (bind _ _) => apply keeps_environ_bind; [|intros ?]
  | |- keeps_environ (try_except _ _) =>
      apply keeps_environ_try_except; [|intros ?]
  | |- keeps_environ (ret _) => apply keeps_environ_ret
  | |- keeps_environ (raise _) => apply keeps_environ_raise
  | |- keeps_environ (lift _) => apply keeps_environ_lift
  | |- keeps_environ (print _) => apply keeps_environ_print
  | |- keeps_environ (os_getenv _ _) => apply keeps_environ_os_getenv
  | |- keeps_environ now_timestamp_int => apply keeps_environ_now
  | |- keeps_environ (external _ _) => apply keeps_environ_external
  | |- keeps_environ (if ?b then _ else _) => destruct b
  | |- keeps_environ (match ?x with _ => _ end) => destruct x
  end.

Section Keeps_environ_program.
Context {S : Type} `{!External S}.

Lemma iceberg_insert_keeps_environ resources data_dict :
  keeps_environ (S:=S) (iceberg_insert resources data_dict).
Proof.
  unfold iceberg_insert, get_iceberg_destination_config,
    get_iceberg_credentials, get_env_var, IcebergWriter_init,
    get_access_token, load_catalog, write, validate_data,
    create_table_from_pyarrow, py_schema, table_append, table_overwrite.
  repeat keeps_environ_step.
Qed.

End Keeps_environ_program.

(** ** Tables written by successive batches *)

Lemma append_inj_r (p a b : string) : p +:+ a = p +:+ b -> a = b.
Proof. induction p as [|c p IH]; simpl; [done|]. intros [= Heq]. auto. Qed.

(** With the in-memory catalog, a run that returns stores the batch under
    the destination and changes nothing else. *)
Lemma mem_insert_effect resources data_dict (w w' : world Mem.mem) :
  iceberg_insert resources data_dict w = (Returned tt, w') ->
  Mem.tables (ext w') =
  <[destination_of (environ w) data_dict :=
      ArrowTable (schema resources) (rows resources)]> (Mem.tables (ext w)).
Proof.
  intros Hrun.
  destruct (iceberg_insert_returned _ _ _ _ Hrun)
    as (connection & writer & w1 & tb & s1 & Hinit & _ & H1 & H2 & _).
  apply mem_init_keeps_store in Hinit.
  simpl in H1, H2. unfold Mem.overwrite in H2. injection H2 as H2.
  rewrite <- H2. simpl.
  unfold Mem.create_table_if_not_exists in H1.
  destruct (Mem.tables (ext w1) !! _) eqn:Hold;
    injection H1 as <- <-; simpl; rewrite <- Hinit; [done|].
  by rewrite insert_insert_eq.
Qed.

(** X21: when a table is configured, every collection is written to that
    one table: of two batches delivered one after the other, whichever
    collections they come from, only the second is left in it. *)
Theorem configured_table_is_shared (t : string)
        (b1 b2 : arrow_table) (d1 d2 : gmap string string)
        (w w1 w2 : world Mem.mem) :
  environ w !! "DESTINATION__ICEBERG__CONFIG__TABLE" = Some t ->
  t <> "dlt_default_table" ->
  iceberg_insert b1 d1 w = (Returned tt, w1) ->
  iceberg_insert b2 d2 w1 = (Returned tt, w2) ->
  let destination :=
    default "dlt_default_namespace"
            (environ w !! "DESTINATION__ICEBERG__CONFIG__NAMESPACE")
    +:+ "." +:+ t in
  Mem.tables (ext w1) !! destination = Some (ArrowTable (schema b1) (rows b1)) /\
  Mem.tables (ext w2) !! destination = Some (ArrowTable (schema b2) (rows b2)).
Proof.
  intros Ht Hne Hrun1 Hrun2 destination.
  pose proof (iceberg_insert_keeps_environ _ _ _ _ _ Hrun1) as Henv.
  assert (forall d, destination_of (environ w) d = destination) as Hdest.
  { intros d. unfold destination_of, destination. rewrite Ht. simpl.
    by rewrite bool_decide_eq_true_2. }
  rewrite (mem_insert_effect _ _ _ _ Hrun2), (mem_insert_effect _ _ _ _ Hrun1).
  rewrite Henv, !Hdest. split; by rewrite lookup_insert_eq.
Qed.

(** X22: when no table is configured (the variable is unset, or set to
    "dlt_default_table"), each batch goes to the table named by its schema
    dictionary: batches of two differently named collections
    land in two tables, and the second write leaves the first table as it
    was. *)
Theorem unconfigured_tables_are_separate (n1 n2 : string)
        (b1 b2 : arrow_table) (d1 d2 : gmap string string)
        (w w1 w2 : world Mem.mem) :
  default "dlt_default_table"
          (environ w !! "DESTINATION__ICEBERG__CONFIG__TABLE")
    = "dlt_default_table" ->
  d1 !! "name" = Some n1 -> d2 !! "name" = Some n2 -> n1 <> n2 ->
  iceberg_insert b1 d1 w = (Returned tt, w1) ->
  iceberg_insert b2 d2 w1 = (Returned tt, w2) ->
  let namespace :=
    default "dlt_default_namespace"
            (environ w !! "DESTINATION__ICEBERG__CONFIG__NAMESPACE") in
  Mem.tables (ext w2) !! (namespace +:+ "." +:+ n1)
    = Some (ArrowTable (schema b1) (rows b1)) /\
  Mem.tables (ext w2) !! (namespace +:+ "." +:+ n2)
    = Some (ArrowTable (schema b2) (rows b2)).
Proof.
  intros Ht Hn1 Hn2 Hne Hrun1 Hrun2 namespace.
  pose proof (iceberg_insert_keeps_environ _ _ _ _ _ Hrun1) as Henv.
  assert (destination_of (environ w) d1 = namespace +:+ "." +:+ n1) as Hd1.
  { unfold destination_of, namespace. by rewrite Ht, Hn1. }
  assert (destination_of (environ w) d2 = namespace +:+ "." +:+ n2) as Hd2.
  { unfold destination_of, namespace. by rewrite Ht, Hn2. }
  rewrite (mem_insert_effect _ _ _ _ Hrun2), (mem_insert_effect _ _ _ _ Hrun1).
  rewrite Henv, Hd1, Hd2. split.
  - rewrite lookup_insert_ne, lookup_insert_eq; [done|].
    intros Heq. apply append_inj_r in Heq. apply (append_inj_r ".") in Heq.
    by apply Hne.
  - by rewrite lookup_insert_eq.
Qed.

(** ** The further properties at sample inputs *)

Import Sample_more.

Lemma get_access_token_requests_effective_scopes_witness :
  scopes_usable read_only_scopes /\ scopes_usable (PyList []) /\
  (exists rest,
      calls (get_access_token (PyStr "/etc/gcs/key.json") read_only_scopes
                              (start ∅)).2 =
      calls (start ∅) ++
      LoadCredentialsFromFile (PyStr "/etc/gcs/key.json") read_only_scopes :: rest) /\
  (exists rest,
      calls (get_access_token (PyStr "/etc/gcs/key.json") (PyList [])
                              (start ∅)).2 =
      calls (start ∅) ++
      LoadCredentialsFromFile (PyStr "/etc/gcs/key.json") default_scopes :: rest).
Proof.
  assert (scopes_usable read_only_scopes) as H1 by (right; by eexists).
  assert (scopes_usable (PyList [])) as H2 by (right; by eexists).
  split; [exact H1|]. split; [exact H2|]. split.
  - exact (get_access_token_requests_effective_scopes
             (PyStr "/etc/gcs/key.json") read_only_scopes (start ∅) H1).
  - exact (get_access_token_requests_effective_scopes
             (PyStr "/etc/gcs/key.json") (PyList []) (start ∅) H2).
Defined.

Lemma init_gcs_unsized_scopes_raise_witness :
  dict_get gcs_connection_int_scopes "cloud_provider" PyNone = PyStr "gcs" /\
  ~ scopes_usable (dict_get gcs_connection_int_scopes "scopes" PyNone) /\
  exists msg,
    IcebergWriter_init gcs_connection_int_scopes (start ∅)
    = (Raised (Exn TypeError msg), start ∅).
Proof.
  assert (dict_get gcs_connection_int_scopes "cloud_provider" PyNone
          = PyStr "gcs") as Hp by reflexivity.
  assert (~ scopes_usable (dict_get gcs_connection_int_scopes "scopes" PyNone))
    as Hsc by (intros [H | [n H]]; discriminate H).
  split; [exact Hp|]. split; [exact Hsc|].
  exact (init_gcs_unsized_scopes_raise gcs_connection_int_scopes (start ∅) Hp Hsc).
Defined.

Lemma init_s3_abfss_single_call_witness :
  dict_get s3_connection "cloud_provider" PyNone = PyStr "s3" /\
  exists r s',
    lib_load_catalog "iceberg_catalog" (s3_properties s3_connection)
                     (ext (start ∅)) = (r, s') /\
    calls (IcebergWriter_init s3_connection (start ∅)).2 =
    [LoadCatalog "iceberg_catalog" (s3_properties s3_connection)].
Proof.
  assert (dict_get s3_connection "cloud_provider" PyNone = PyStr "s3")
    as Hp by reflexivity.
  split; [exact Hp|].
  destruct (init_s3_abfss_single_call s3_connection (start ∅) (or_introl Hp))
    as (r & s' & Hcall & Hinit).
  exists r, s'. split; [exact Hcall|]. by rewrite Hinit.
Defined.

Lemma init_gcs_token_failure_propagates_witness :
  dict_get gcs_connection_no_key "cloud_provider" PyNone = PyStr "gcs" /\
  scopes_usable (dict_get gcs_connection_no_key "scopes" PyNone) /\
  IcebergWriter_init (External0 := Strict.strict_external)
                     gcs_connection_no_key (start ∅) =
  (Raised Strict.no_key_file,
   World ∅ (ext (start ∅))
         [LoadCredentialsFromFile (PyStr "") default_scopes] []).
Proof.
  assert (dict_get gcs_connection_no_key "cloud_provider" PyNone = PyStr "gcs")
    as Hp by reflexivity.
  assert (scopes_usable (dict_get gcs_connection_no_key "scopes" PyNone))
    as Hsc by (left; reflexivity).
  split; [exact Hp|]. split; [exact Hsc|].
  exact (proj1 (init_gcs_token_failure_propagates
                  (External0 := Strict.strict_external)
                  gcs_connection_no_key (start ∅) Strict.no_key_file Hp Hsc)
               (ext (start ∅)) eq_refl).
Defined.

Lemma init_ignores_other_keys_witness :
  ("warehouse_path"
     ∉ keys_used (dict_get s3_connection "cloud_provider" PyNone)) /\
  IcebergWriter_init (<["warehouse_path" := PyStr "s3://elsewhere"]> s3_connection)
                     (start ∅)
  = IcebergWriter_init s3_connection (start ∅).
Proof.
  assert ("warehouse_path"
            ∉ keys_used (dict_get s3_connection "cloud_provider" PyNone)) as Hk
    by (vm_compute; set_solver).
  split; [exact Hk|].
  exact (init_ignores_other_keys s3_connection "warehouse_path"
           (PyStr "s3://elsewhere") (start ∅) Hk).
Defined.

Lemma create_writer_is_the_constructor_witness :
  supported_provider (dict_get s3_connection "cloud_provider" PyNone) /\
  create_writer s3_connection (start ∅) = IcebergWriter_init s3_connection (start ∅).
Proof.
  assert (supported_provider (dict_get s3_connection "cloud_provider" PyNone))
    as Hs by (left; reflexivity).
  split; [exact Hs|].
  exact (proj1 (create_writer_is_the_constructor s3_connection (start ∅)) Hs).
Defined.

Lemma write_operation_failure_propagates_witness :
  rows users_batch <> [] /\
  write (External0 := ReadOnly.read_only_external)
        a_writer (PyTable users_batch) "ns.tbl" "append" (start ∅) =
  (Raised ReadOnly.commit_failed,
   World ∅ (ext (start ∅))
         [CreateTableIfNotExists (catalog a_writer) "ns.tbl" (schema users_batch);
          TableAppend (IcebergTable "ns.tbl") (PyTable users_batch)]
         ["Input data is valid for Iceberg."]).
Proof.
  assert (rows users_batch <> []) as Hne by discriminate.
  split; [exact Hne|].
  exact (proj1 (write_operation_failure_propagates
                  (External0 := ReadOnly.read_only_external)
                  a_writer users_batch "ns.tbl" (start ∅)
                  (IcebergTable "ns.tbl") (ext (start ∅)) (ext (start ∅))
                  ReadOnly.commit_failed Hne eq_refl) eq_refl).
Defined.

Lemma write_returned_witness :
  exists w',
    write a_writer (PyTable users_batch) "ns.tbl" "overwrite" (start ∅)
      = (Returned tt, w') /\
    calls w' =
      [CreateTableIfNotExists (catalog a_writer) "ns.tbl" (schema users_batch);
       TableOverwrite (IcebergTable "ns.tbl") (PyTable users_batch)] /\
    stdout w' =
      ["Input data is valid for Iceberg.";
       "Data successfully written to Iceberg table 'ns.tbl' in overwrite mode."].
Proof.
  set (w' := (write a_writer (PyTable users_batch) "ns.tbl" "overwrite"
                    (start ∅)).2).
  assert (write a_writer (PyTable users_batch) "ns.tbl" "overwrite" (start ∅)
          = (Returned tt, w')) as Hrun by reflexivity.
  exists w'. split; [exact Hrun|].
  destruct (write_returned a_writer (PyTable users_batch) "ns.tbl" "overwrite"
              (start ∅) w' Hrun)
    as (t & tb & s1 & _ & _ & _ & _ & Hout).
  split; [reflexivity | exact Hout].
Defined.

Lemma write_returns_iff_witness :
  (exists w', write a_writer (PyTable users_batch) "ns.tbl" "append" (start ∅)
              = (Returned tt, w')) /\
  ~ (exists w', write a_writer (PyTable users_batch) "ns.tbl" "upsert" (start ∅)
                = (Returned tt, w')).
Proof.
  split.
  - apply (write_returns_iff a_writer (PyTable users_batch) "ns.tbl" "append"
             (start ∅) mem_catalog_operations_succeed).
    split; [exists users_batch; by split | by left].
  - intros Hrun.
    apply (write_returns_iff a_writer (PyTable users_batch) "ns.tbl" "upsert"
             (start ∅) mem_catalog_operations_succeed) in Hrun.
    destruct Hrun as [_ [H | H]]; discriminate H.
Defined.

Lemma destination_config_entries_witness :
  config_set (environ (start gcs_environ)) "gcs" "lake" "gs://lake/warehouse"
             "http://metastore:8181" /\
  exists cfg,
    get_iceberg_destination_config (start gcs_environ)
      = (Returned cfg, start gcs_environ) /\
    cfg !! "table" = Some "dlt_default_table" /\
    cfg !! "namespace" = Some "dlt_default_namespace".
Proof.
  assert (config_set (environ (start gcs_environ)) "gcs" "lake"
            "gs://lake/warehouse" "http://metastore:8181") as Hset
    by (split_and!; reflexivity).
  split; [exact Hset|].
  destruct (destination_config_entries (start gcs_environ) _ _ _ _ Hset)
    as (cfg & Hcfg & _ & _ & _ & _ & _ & Htable & Hns).
  exists cfg. split; [exact Hcfg|]. split; [exact Htable | exact Hns].
Defined.

Lemma first_unset_variable_is_named_witness :
  first_unset (environ (start bare_environ))
    (required_variables
       (default "" (environ (start bare_environ)
                      !! "DESTINATION__ICEBERG__CONFIG__CLOUD_PROVIDER")))
    = Some "DESTINATION__ICEBERG__CONFIG__CATALOG" /\
  iceberg_insert users_batch users_dict (start bare_environ) =
  (Raised (Exn ValueError
     "Environment variable 'DESTINATION__ICEBERG__CONFIG__CATALOG' is required but not set."),
   start bare_environ).
Proof.
  assert (first_unset (environ (start bare_environ))
            (required_variables
               (default "" (environ (start bare_environ)
                              !! "DESTINATION__ICEBERG__CONFIG__CLOUD_PROVIDER")))
          = Some "DESTINATION__ICEBERG__CONFIG__CATALOG") as Hfirst
    by reflexivity.
  split; [exact Hfirst|].
  exact (first_unset_variable_is_named (start bare_environ) _
           users_batch users_dict Hfirst).
Defined.

Lemma unsupported_provider_in_environment_witness :
  config_set (environ (start azure_environ)) "azure" "lake" "wasb://lake"
             "http://metastore:8181" /\
  iceberg_insert users_batch users_dict (start azure_environ) =
  (Raised (Exn ValueError
     "Unsupported cloud provider. Supported providers are 's3', 'abfss', and 'gcp'."),
   start azure_environ).
Proof.
  assert (config_set (environ (start azure_environ)) "azure" "lake"
            "wasb://lake" "http://metastore:8181") as Hset
    by (split_and!; reflexivity).
  split; [exact Hset|].
  apply (unsupported_provider_in_environment (start azure_environ) _ _ _ _
           users_batch users_dict Hset); discriminate.
Defined.

Lemma s3_environment_reaches_catalog_witness :
  config_set (environ (start s3_environ)) "s3" "lake" "s3://lake/warehouse"
             "http://metastore:8181" /\
  exists after,
    calls (iceberg_insert users_batch users_dict (start s3_environ)).2 =
    LoadCatalog "iceberg_catalog"
      (<["uri" := PyStr "http://metastore:8181"]>
       (<["s3.access-key-id" := PyStr "AKIAEXAMPLE"]>
        (<["s3.secret-access-key" := PyStr "secret"]>
         (<["s3.region" := PyStr "ap-south-1"]> ∅))))
    :: after.
Proof.
  assert (config_set (environ (start s3_environ)) "s3" "lake"
            "s3://lake/warehouse" "http://metastore:8181") as Hset
    by (split_and!; reflexivity).
  split; [exact Hset|].
  exact (s3_environment_reaches_catalog (start s3_environ) _ _ _
           "AKIAEXAMPLE" "secret" users_batch users_dict Hset eq_refl eq_refl).
Defined.

Lemma abfss_environment_reaches_catalog_witness :
  config_set (environ (start abfss_environ)) "abfss" "lake"
             "abfss://lake@acct/warehouse" "http://metastore:8181" /\
  exists after,
    calls (iceberg_insert users_batch users_dict (start abfss_environ)).2 =
    LoadCatalog "iceberg_catalog"
      (<["py-io-impl" := PyStr "pyiceberg.io.fsspec.FsspecFileIO"]>
       (<["adls.account-name" := PyStr "acct"]>
        (<["adls.account-key" := PyStr "key=="]>
         (<["uri" := PyStr "http://metastore:8181"]> ∅))))
    :: after.
Proof.
  assert (config_set (environ (start abfss_environ)) "abfss" "lake"
            "abfss://lake@acct/warehouse" "http://metastore:8181") as Hset
    by (split_and!; reflexivity).
  split; [exact Hset|].
  exact (abfss_environment_reaches_catalog (start abfss_environ) _ _ _
           "core.windows.net" "acct" "key==" users_batch users_dict
           Hset eq_refl eq_refl eq_refl).
Defined.

Lemma gcs_environment_reaches_catalog_witness :
  config_set (environ (start gcs_environ)) "gcs" "lake" "gs://lake/warehouse"
             "http://metastore:8181" /\
  exists rest,
    calls (iceberg_insert users_batch users_dict (start gcs_environ)).2 =
    LoadCredentialsFromFile (PyStr "/etc/gcs/key.json") default_scopes :: rest.
Proof.
  assert (config_set (environ (start gcs_environ)) "gcs" "lake"
            "gs://lake/warehouse" "http://metastore:8181") as Hset
    by (split_and!; reflexivity).
  split; [exact Hset|].
  exact (proj1 (gcs_environment_reaches_catalog (start gcs_environ) _ _ _
                  "analytics-prod" "/etc/gcs/key.json" users_batch users_dict
                  Hset eq_refl eq_refl)).
Defined.

Lemma empty_batch_is_fatal_witness :
  rows empty_batch = [] /\
  exists w' new,
    iceberg_insert empty_batch users_dict (start abfss_environ) =
    (Raised (Exn ValueError "Input data cannot be empty."), w') /\
    calls w' = calls (start abfss_environ) ++ new /\ Forall not_catalog new /\
    stdout w' = stdout (start abfss_environ).
Proof.
  split; [reflexivity|].
  exact (empty_batch_is_fatal empty_batch users_dict (start abfss_environ)
           (or_intror (or_introl eq_refl)) eq_refl mem_services_available eq_refl).
Defined.

Lemma callback_end_to_end_witness :
  rows users_batch <> [] /\
  exists w',
    iceberg_insert users_batch users_dict (start gcs_environ) = (Returned tt, w') /\
    stdout w' =
      ["Input data is valid for Iceberg.";
       "Data successfully written to Iceberg table 'dlt_default_namespace.users' in overwrite mode.";
       "Data successfully written to Iceberg table dlt_default_namespace.users!"].
Proof.
  assert (rows users_batch <> []) as Hne by discriminate.
  split; [exact Hne|].
  destruct (callback_end_to_end users_batch users_dict (start gcs_environ)
              (or_intror (or_intror eq_refl)) eq_refl
              mem_services_available mem_catalog_operations_succeed Hne)
    as (w' & before & cat & tb & Hrun & _ & _ & Hout).
  exists w'. split; [exact Hrun | exact Hout].
Defined.

Lemma configured_table_is_shared_witness :
  exists w1 w2,
    iceberg_insert users_batch users_dict (start s3_environ) = (Returned tt, w1) /\
    iceberg_insert orders_batch orders_dict w1 = (Returned tt, w2) /\
    Mem.tables (ext w1) !! "ns.events" = Some users_batch /\
    Mem.tables (ext w2) !! "ns.events" = Some orders_batch.
Proof.
  set (w1 := (iceberg_insert users_batch users_dict (start s3_environ)).2).
  set (w2 := (iceberg_insert orders_batch orders_dict w1).2).
  assert (iceberg_insert users_batch users_dict (start s3_environ)
          = (Returned tt, w1)) as H1 by (vm_compute; reflexivity).
  assert (iceberg_insert orders_batch orders_dict w1 = (Returned tt, w2)) as H2
    by (vm_compute; reflexivity).
  exists w1, w2. split; [exact H1|]. split; [exact H2|].
  assert ("events" <> "dlt_default_table") as Hne by discriminate.
  exact (configured_table_is_shared "events" users_batch orders_batch
           users_dict orders_dict (start s3_environ) w1 w2 eq_refl Hne H1 H2).
Defined.

Lemma unconfigured_tables_are_separate_witness :
  exists w1 w2,
    iceberg_insert users_batch users_dict (start gcs_environ) = (Returned tt, w1) /\
    iceberg_insert orders_batch orders_dict w1 = (Returned tt, w2) /\
    Mem.tables (ext w2) !! "dlt_default_namespace.users" = Some users_batch /\
    Mem.tables (ext w2) !! "dlt_default_namespace.orders" = Some orders_batch.
Proof.
  set (w1 := (iceberg_insert users_batch users_dict (start gcs_environ)).2).
  set (w2 := (iceberg_insert orders_batch orders_dict w1).2).
  assert (iceberg_insert users_batch users_dict (start gcs_environ)
          = (Returned tt, w1)) as H1 by (vm_compute; reflexivity).
  assert (iceberg_insert orders_batch orders_dict w1 = (Returned tt, w2)) as H2
    by (vm_compute; reflexivity).
  exists w1, w2. split; [exact H1|]. split; [exact H2|].
  assert ("users" <> "orders") as Hne by discriminate.
  exact (unconfigured_tables_are_separate "users" "orders" users_batch
           orders_batch users_dict orders_dict (start gcs_environ) w1 w2
           eq_refl eq_refl eq_refl Hne H1 H2).
Defined.
